(** * Open Receivables & Liabilities report (src/reports/orl/report.ts)

    A shallow embedding of the aggregation performed by [generateORLReport]:
    grouping of the gross transactions into records, the receivables and
    liabilities of every record (liabilities split by VAT category), the
    visible VAT columns, the data rows and the totals row.

    Conventions of the embedding.
    - A JavaScript [number] is an exact rational ([Q]); sums are exact.
      The additions are made in the order of the source.
    - A JavaScript object used as a dictionary is an insertion-ordered
      association list ([Obj.t]): assigning to an existing key keeps the
      position of the key, assigning to a new key appends it, and the keys
      are enumerated in insertion order.  This is the enumeration order of
      JavaScript for keys that are not canonical array indices, and the
      lookup of JavaScript for keys that are not inherited from
      [Object.prototype].  The keys of the VAT categories are of this kind.
      The keys of the groups are references and reservation ids, which may
      be anything: [Plain] embeds the grouping with the inherited members
      and the enumeration order of the accumulator, and
      [generateORLReportOnPlainObject] is the report over it.
    - [Array.prototype.sort] is stable, and is an insertion sort here.
    - Strings are sequences of characters; the dates cut by [substr] are
      ASCII.
    - An exception is a value of [Result]; writing to the sheet is not
      embedded, the values handed to it are ([Report.t]). *)

From Stdlib Require Import List String Ascii ZArith QArith Qround Bool Lia.
From Stdlib Require Import Permutation Sorted DecimalString.
Import ListNotations.

Local Open Scope string_scope.
Local Open Scope list_scope.

(** ** JavaScript objects used as dictionaries *)

Module Obj.

Definition t (A : Type) : Type := list (string * A).

(** [o[k]]: the value stored under [k], [None] for [undefined]. *)
Fixpoint get {A : Type} (k : string) (o : t A) : option A :=
  match o with
  | [] => None
  | (k', v) :: o' => if String.eqb k k' then Some v else get k o'
  end.

(** [o[k] = v]. *)
Fixpoint put {A : Type} (k : string) (v : A) (o : t A) : t A :=
  match o with
  | [] => [(k, v)]
  | (k', v') :: o' =>
      if String.eqb k k' then (k', v) :: o' else (k', v') :: put k v o'
  end.

(** [Object.keys(o)], also the order of [for (let key in o)]. *)
Definition keys {A : Type} (o : t A) : list string := map fst o.

(** [Object.values(o)]. *)
Definition values {A : Type} (o : t A) : list A := map snd o.

End Obj.

(** ** Exceptions *)

Inductive Error : Type :=
| UnsupportedReferenceType (referenceType : string)
    (* new Error(`Transactions with reference type ... are not supported`) *)
| TypeError.
    (* a property read on [undefined] *)

Inductive Result (A : Type) : Type :=
| Ok (a : A)
| Throw (e : Error).

Arguments Ok {A} a.
Arguments Throw {A} e.

Definition bind {A B : Type} (m : Result A) (f : A -> Result B) : Result B :=
  match m with
  | Ok a => f a
  | Throw e => Throw e
  end.

Notation "x <- m ;; k" := (bind m (fun x => k))
  (at level 61, m at next level, right associativity).

(** [xs.reduce(step, init)] with a callback that may throw. *)
Fixpoint reduceM {A S : Type} (step : S -> A -> Result S) (xs : list A)
  (init : S) : Result S :=
  match xs with
  | [] => Ok init
  | x :: xs' => s <- step init x ;; reduceM step xs' s
  end.

(** ** Numbers *)

(** Modelled from the spec: [round] is imported from 'shared', which is not
    part of the sources at hand.  The spec describes it as rounding to 2
    decimal places with round-half-up semantics; a tie goes up, as with
    [Math.round]. *)
Definition round (x : Q) : Q := Qred (Qfloor (x * 100 + (1 # 2)) # 100).

(** Truthiness of a number: every number but zero. *)
Definition truthy (x : Q) : bool := negb (Qeq_bool x 0).

(** [x || 0] for a number [x] that may be [undefined]. *)
Definition orZero (x : option Q) : Q :=
  match x with
  | Some v => if truthy v then v else 0
  | None => 0
  end.

(** Truthiness of a string: every string but the empty one. *)
Definition truthyString (s : string) : bool :=
  match s with
  | EmptyString => false
  | String _ _ => true
  end.

(** ** The data model *)

Module AccountModel.
Record t : Type := mk { type : string }.
End AccountModel.

Module TaxAmountModel.
Record t : Type := mk { type : string; percent : Q }.
End TaxAmountModel.

Module ReservationModel.
Record t : Type := mk {
  id : string;
  arrival : string;
  departure : string;
  status : string
}.
End ReservationModel.

(** [ReportsModels["TransactionsGrossExportListItemModel"]], with the fields
    the report reads.  [reservation] and [taxes] are optional, [grossAmount]
    stands for [Number(t.grossAmount)]. *)
Module Transaction.
Record t : Type := mk {
  referenceType : string;
  reference : string;
  reservation : option ReservationModel.t;
  grossAmount : Q;
  debitedAccount : AccountModel.t;
  creditedAccount : AccountModel.t;
  taxes : option (list TaxAmountModel.t)
}.
End Transaction.

(** [VatInfo]: [{ key, type, percent }] or [{ key }]. *)
Module VatInfo.
Record t : Type := mk {
  key : string;
  type : option string;
  percent : option Q
}.
End VatInfo.

(** [LRReportRowItemModel]: a record of the report. *)
Module LRReportRowItemModel.
Record t : Type := mk {
  id : string;
  type : string;
  arrival : option string;
  departure : option string;
  status : option string;
  transactions : list Transaction.t;
  receivables : Q;
  liabilities : Obj.t Q
}.
End LRReportRowItemModel.

Module Column.
Record t : Type := mk { displayName : string; key : string }.
End Column.

(** A cell of a row handed to the sheet. *)
Inductive Cell : Type :=
| CStr (s : string)
| CNum (x : Q)
| CUndefined.

(** ** Strings *)

(** The double quote character, used inside the hyperlink formulas. *)
Definition dquote : string := String (ascii_of_nat 34) EmptyString.

(** [s.substr(0, n)]. *)
Definition substr0 (n : nat) (s : string) : string := substring 0 n s.

(** An instance of the conversion of a number to a string, for the worked
    examples: integers and short finite decimals print as JavaScript prints
    them (19 as 19, 7.5 as 7.5).  The report itself is defined over an
    arbitrary conversion, see [numberToString] below. *)
Fixpoint fractionDigits (fuel : nat) (num den : Z) : string :=
  match fuel with
  | O => EmptyString
  | S fuel' =>
      if (num =? 0)%Z then EmptyString
      else
        NilZero.string_of_uint (N.to_uint (Z.to_N ((num * 10) / den)))
        ++ fractionDigits fuel' ((num * 10) mod den)%Z den
  end.

Definition decimalString (q : Q) : string :=
  let n := Z.abs (Qnum q) in
  let d := Zpos (Qden q) in
  (if (Qnum q <? 0)%Z then "-" else EmptyString)
  ++ NilZero.string_of_uint (N.to_uint (Z.to_N (n / d)))
  ++ (if (n mod d =? 0)%Z then EmptyString
      else "." ++ fractionDigits 20 (n mod d)%Z d).

(** ** Grouping *)

Definition getRecordId (transaction : Transaction.t) : Result string :=
  if Transaction.referenceType transaction =? "Guest" then
    match Transaction.reservation transaction with
    | Some reservation => Ok (ReservationModel.id reservation)
    | None => Throw TypeError
    end
  else Ok (Transaction.reference transaction).

Definition createRecordForTransaction (transaction : Transaction.t)
  : Result LRReportRowItemModel.t :=
  if Transaction.referenceType transaction =? "Guest" then
    match Transaction.reservation transaction with
    | Some reservation =>
        Ok {| LRReportRowItemModel.id := ReservationModel.id reservation;
              LRReportRowItemModel.type := "Guest";
              LRReportRowItemModel.arrival :=
                Some (substr0 10 (ReservationModel.arrival reservation));
              LRReportRowItemModel.departure :=
                Some (substr0 10 (ReservationModel.departure reservation));
              LRReportRowItemModel.status :=
                Some (ReservationModel.status reservation);
              LRReportRowItemModel.transactions := [transaction];
              LRReportRowItemModel.receivables := 0;
              LRReportRowItemModel.liabilities := [("total", 0)] |}
    | None => Throw TypeError
    end
  else if Transaction.referenceType transaction =? "External" then
    Ok {| LRReportRowItemModel.id := Transaction.reference transaction;
          LRReportRowItemModel.type := "External";
          LRReportRowItemModel.arrival := None;
          LRReportRowItemModel.departure := None;
          LRReportRowItemModel.status := None;
          LRReportRowItemModel.transactions := [transaction];
          LRReportRowItemModel.receivables := 0;
          LRReportRowItemModel.liabilities := [("total", 0)] |}
  else Throw (UnsupportedReferenceType (Transaction.referenceType transaction)).

(** [group.transactions.push(transaction)]. *)
Definition pushTransaction (group : LRReportRowItemModel.t)
  (transaction : Transaction.t) : LRReportRowItemModel.t :=
  {| LRReportRowItemModel.id := LRReportRowItemModel.id group;
     LRReportRowItemModel.type := LRReportRowItemModel.type group;
     LRReportRowItemModel.arrival := LRReportRowItemModel.arrival group;
     LRReportRowItemModel.departure := LRReportRowItemModel.departure group;
     LRReportRowItemModel.status := LRReportRowItemModel.status group;
     LRReportRowItemModel.transactions :=
       LRReportRowItemModel.transactions group ++ [transaction];
     LRReportRowItemModel.receivables := LRReportRowItemModel.receivables group;
     LRReportRowItemModel.liabilities := LRReportRowItemModel.liabilities group |}.

(** The filter on the reference type that opens [generateORLReport]. *)
Definition isGuestOrExternal (transaction : Transaction.t) : bool :=
  (Transaction.referenceType transaction =? "Guest")
  || (Transaction.referenceType transaction =? "External").

(** The callback of the reduction that builds the groups. *)
Definition groupStep (groups : Obj.t LRReportRowItemModel.t)
  (transaction : Transaction.t) : Result (Obj.t LRReportRowItemModel.t) :=
  groupId <- getRecordId transaction ;;
  match Obj.get groupId groups with
  | None =>
      record <- createRecordForTransaction transaction ;;
      Ok (Obj.put groupId record groups)
  | Some group =>
      Ok (Obj.put groupId (pushTransaction group transaction) groups)
  end.

Definition groupTransactions (transactions : list Transaction.t)
  : Result (list LRReportRowItemModel.t) :=
  groups <- reduceM groupStep transactions [] ;;
  Ok (Obj.values groups).

(** ** Hyperlinks *)

Definition createHyperLinkForRecord (propertyId : string)
  (r : LRReportRowItemModel.t) : string :=
  let id := LRReportRowItemModel.id r in
  if LRReportRowItemModel.type r =? "Guest" then
    "=HYPERLINK(" ++ dquote ++ "https://app.apaleo.com/" ++ propertyId
    ++ "/reservations/" ++ id ++ "/folio" ++ dquote ++ "; " ++ dquote ++ id
    ++ dquote ++ ")"
  else if LRReportRowItemModel.type r =? "External" then
    "=HYPERLINK(" ++ dquote ++ "https://app.apaleo.com/" ++ propertyId
    ++ "/finance/folios/" ++ id ++ "/general" ++ dquote ++ "; " ++ dquote ++ id
    ++ dquote ++ ")"
  else id.

(** ** Aggregation *)

(** [o.k] for a property that the object holds. *)
Definition readNumber (k : string) (o : Obj.t Q) : Q :=
  match Obj.get k o with
  | Some v => v
  | None => 0
  end.

(** [ts.reduce((sum, t) => sum + Number(t.grossAmount), 0)]. *)
Definition sumGross (ts : list Transaction.t) : Q :=
  fold_left (fun sum t => sum + Transaction.grossAmount t)%Q ts 0%Q.

Definition isReceivable (t : Transaction.t) : bool :=
  AccountModel.type (Transaction.debitedAccount t) =? "Receivables".

Definition isLiability (t : Transaction.t) : bool :=
  AccountModel.type (Transaction.creditedAccount t) =? "Liabilities".

Definition recordReceivables (record : LRReportRowItemModel.t) : Q :=
  round (sumGross (filter isReceivable (LRReportRowItemModel.transactions record))).

(** [t.taxes && t.taxes[0]]. *)
Definition firstTax (t : Transaction.t) : option TaxAmountModel.t :=
  match Transaction.taxes t with
  | Some (tax :: _) => Some tax
  | _ => None
  end.

Definition setReceivables (record : LRReportRowItemModel.t) (x : Q)
  : LRReportRowItemModel.t :=
  {| LRReportRowItemModel.id := LRReportRowItemModel.id record;
     LRReportRowItemModel.type := LRReportRowItemModel.type record;
     LRReportRowItemModel.arrival := LRReportRowItemModel.arrival record;
     LRReportRowItemModel.departure := LRReportRowItemModel.departure record;
     LRReportRowItemModel.status := LRReportRowItemModel.status record;
     LRReportRowItemModel.transactions := LRReportRowItemModel.transactions record;
     LRReportRowItemModel.receivables := x;
     LRReportRowItemModel.liabilities := LRReportRowItemModel.liabilities record |}.

Definition setLiabilities (record : LRReportRowItemModel.t) (l : Obj.t Q)
  : LRReportRowItemModel.t :=
  {| LRReportRowItemModel.id := LRReportRowItemModel.id record;
     LRReportRowItemModel.type := LRReportRowItemModel.type record;
     LRReportRowItemModel.arrival := LRReportRowItemModel.arrival record;
     LRReportRowItemModel.departure := LRReportRowItemModel.departure record;
     LRReportRowItemModel.status := LRReportRowItemModel.status record;
     LRReportRowItemModel.transactions := LRReportRowItemModel.transactions record;
     LRReportRowItemModel.receivables := LRReportRowItemModel.receivables record;
     LRReportRowItemModel.liabilities := l |}.

(** The [totals] object. *)
Module Totals.
Record t : Type := mk { receivables : Q; liabilities : Obj.t Q }.
End Totals.

(** What the loop over the grouped records updates. *)
Module State.
Record t : Type := mk {
  vatTypesInfo : Obj.t VatInfo.t;
  guestRecords : list LRReportRowItemModel.t;
  externalRecords : list LRReportRowItemModel.t;
  totals : Totals.t
}.
End State.

Definition initialState : State.t :=
  {| State.vatTypesInfo := [];
     State.guestRecords := [];
     State.externalRecords := [];
     State.totals :=
       {| Totals.receivables := 0; Totals.liabilities := [("total", 0%Q)] |} |}.

(** The body of [for (let key in liabilities)]: the rounded amount goes on
    the record and is added to the totals. *)
Definition storeStep (liabilities : Obj.t Q)
  (acc : Obj.t Q * Obj.t Q) (key : string) : Obj.t Q * Obj.t Q :=
  let '(recordLiabilities, totalsLiabilities) := acc in
  let amount := round (readNumber key liabilities) in
  (Obj.put key amount recordLiabilities,
   Obj.put key (orZero (Obj.get key totalsLiabilities) + amount)%Q
     totalsLiabilities).

(** A stable sort, as [Array.prototype.sort] is: [a] moves behind [b] only
    when the comparison of [a] with [b] is positive. *)
Fixpoint insertSorted {A : Type} (cmp : A -> A -> Q) (a : A) (l : list A)
  : list A :=
  match l with
  | [] => [a]
  | b :: l' =>
      if Qle_bool (cmp a b) 0 then a :: b :: l'
      else b :: insertSorted cmp a l'
  end.

Definition sortBy {A : Type} (cmp : A -> A -> Q) (l : list A) : list A :=
  fold_right (insertSorted cmp) [] l.

(** [(a.percent || 0) - (b.percent || 0)]. *)
Definition comparePercent (a b : VatInfo.t) : Q :=
  (orZero (VatInfo.percent a) - orZero (VatInfo.percent b))%Q.

(** [usedVatTypes.indexOf(key) !== -1]. *)
Definition includes (keys : list string) (key : string) : bool :=
  existsb (String.eqb key) keys.

Definition optionalCell (s : option string) : Cell :=
  match s with
  | Some s => CStr s
  | None => CUndefined
  end.

(** What [generateORLReport] computes for the sheet.  [body] is what it
    writes under the header: the data rows and then the totals row, or
    nothing when there is no data row. *)
Module Report.
Record t : Type := mk {
  liabilitiesColumns : list Column.t;
  header : list string;
  rows : list (list Cell);
  totalRow : list Cell;
  body : list (list Cell);
  (* the numbers of the summary line *)
  transactionsProcessed : nat;
  recordsTotal : nat;
  reservations : nat;
  externalFolios : nat
}.
End Report.

(** ** Grouping on a plain object

    The accumulator of the reduction is the plain object [{}].  It answers
    to the property names of [Object.prototype] without owning them, and
    [Object.values] lists the values stored under array indices first, in
    ascending order, before the other values in the order of their
    creation. *)

Module Plain.

(** The property names of [Object.prototype] (ECMAScript, 20.1.3 and
    B.2.2). *)
Definition prototypeNames : list string :=
  [ "constructor"; "__proto__"; "hasOwnProperty"; "isPrototypeOf";
    "propertyIsEnumerable"; "toLocaleString"; "toString"; "valueOf";
    "__defineGetter__"; "__defineSetter__"; "__lookupGetter__";
    "__lookupSetter__" ].

Definition inherits (k : string) : bool :=
  existsb (String.eqb k) prototypeNames.

(** What [o[k]] evaluates to: a value that [o] owns, a member of
    [Object.prototype] (a function or an object: truthy, and without the
    properties of a record), or [undefined]. *)
Inductive Member (A : Type) : Type :=
| Own (a : A)
| Inherited
| Undefined.

Arguments Own {A} a.
Arguments Inherited {A}.
Arguments Undefined {A}.

Definition member {A : Type} (k : string) (o : Obj.t A) : Member A :=
  match Obj.get k o with
  | Some a => Own a
  | None => if inherits k then Inherited else Undefined
  end.

Definition digit (c : ascii) : option N :=
  let n := N_of_ascii c in
  if ((48 <=? n) && (n <=? 57))%N then Some (n - 48)%N else None.

Fixpoint number (s : string) (acc : N) : option N :=
  match s with
  | EmptyString => Some acc
  | String c s' =>
      match digit c with
      | Some d => number s' (10 * acc + d)%N
      | None => None
      end
  end.

(** An array index: the canonical decimal form, without sign or leading
    zero, of an integer below 2^32 - 1. *)
Definition arrayIndex (k : string) : option N :=
  match k with
  | EmptyString => None
  | String "0" EmptyString => Some 0%N
  | String "0" _ => None
  | _ =>
      match number k 0 with
      | Some n => if (n <? 4294967295)%N then Some n else None
      | None => None
      end
  end.

Definition isIndex (k : string) : bool :=
  match arrayIndex k with
  | Some _ => true
  | None => false
  end.

Definition indexOf (k : string) : Z :=
  match arrayIndex k with
  | Some n => Z.of_N n
  | None => 0
  end.

Definition compareIndex (a b : string) : Q :=
  inject_Z (indexOf a - indexOf b).

(** The own properties in the order of their enumeration. *)
Definition entries {A : Type} (o : Obj.t A) : Obj.t A :=
  sortBy (fun a b => compareIndex (fst a) (fst b))
    (filter (fun kv => isIndex (fst kv)) o)
  ++ filter (fun kv => negb (isIndex (fst kv))) o.

(** [Object.values(o)]. *)
Definition values {A : Type} (o : Obj.t A) : list A := map snd (entries o).

(** The callback of the reduction that builds the groups.  For a key that
    the accumulator inherits, [group] is the inherited member: the branch
    that pushes the transaction is taken, [group.transactions] is
    [undefined], and reading [push] of it throws. *)
Definition groupStep (groups : Obj.t LRReportRowItemModel.t)
  (transaction : Transaction.t) : Result (Obj.t LRReportRowItemModel.t) :=
  groupId <- getRecordId transaction ;;
  match member groupId groups with
  | Undefined =>
      record <- createRecordForTransaction transaction ;;
      Ok (Obj.put groupId record groups)
  | Own group =>
      Ok (Obj.put groupId (pushTransaction group transaction) groups)
  | Inherited => Throw TypeError
  end.

Definition groupTransactions (transactions : list Transaction.t)
  : Result (list LRReportRowItemModel.t) :=
  groups <- reduceM groupStep transactions [] ;;
  Ok (values groups).

End Plain.

(** ** The earlier version of the report

    The sources hold a second, earlier [generateORLReport]: it reports the
    reservations only, with one liabilities amount each and no VAT
    columns.  It is embedded here as [generateReservationsReport]. *)

(** A reservation with its transactions, as the reduction builds it. *)
Module ReservationWithTransactions.
Record t : Type := mk {
  id : string;
  arrival : string;
  departure : string;
  status : string;
  transactions : list Transaction.t
}.
End ReservationWithTransactions.

(** The same reservation once the loop has set its two amounts. *)
Module ReservationBalance.
Record t : Type := mk {
  reservation : ReservationWithTransactions.t;
  receivables : Q;
  liabilities : Q
}.
End ReservationBalance.

Module ReservationsReport.
Record t : Type := mk {
  rows : list (list string);
  (* the numbers of the summary line *)
  reservationsWithBalances : nat;
  withOpenBalance : nat
}.
End ReservationsReport.

Definition isGuestTransaction (transaction : Transaction.t) : bool :=
  Transaction.referenceType transaction =? "Guest".

(** [reservation.transactions.push(transaction)]. *)
Definition pushReservationTransaction (reservation : ReservationWithTransactions.t)
  (transaction : Transaction.t) : ReservationWithTransactions.t :=
  {| ReservationWithTransactions.id := ReservationWithTransactions.id reservation;
     ReservationWithTransactions.arrival :=
       ReservationWithTransactions.arrival reservation;
     ReservationWithTransactions.departure :=
       ReservationWithTransactions.departure reservation;
     ReservationWithTransactions.status :=
       ReservationWithTransactions.status reservation;
     ReservationWithTransactions.transactions :=
       ReservationWithTransactions.transactions reservation ++ [transaction] |}.

(** The callback of the reduction by reservation id; reading the id of a
    missing reservation throws. *)
Definition reservationStep (reservations : Obj.t ReservationWithTransactions.t)
  (transaction : Transaction.t)
  : Result (Obj.t ReservationWithTransactions.t) :=
  match Transaction.reservation transaction with
  | None => Throw TypeError
  | Some res =>
      let id := ReservationModel.id res in
      match Obj.get id reservations with
      | None =>
          Ok (Obj.put id
                {| ReservationWithTransactions.id := id;
                   ReservationWithTransactions.arrival :=
                     substr0 10 (ReservationModel.arrival res);
                   ReservationWithTransactions.departure :=
                     substr0 10 (ReservationModel.departure res);
                   ReservationWithTransactions.status :=
                     ReservationModel.status res;
                   ReservationWithTransactions.transactions := [transaction] |}
                reservations)
      | Some reservation =>
          Ok (Obj.put id (pushReservationTransaction reservation transaction)
                reservations)
      end
  end.

Definition reservationsWithTransactions (data : list Transaction.t)
  : Result (list ReservationWithTransactions.t) :=
  reservations <-
    reduceM reservationStep (filter isGuestTransaction data) [] ;;
  Ok (Obj.values reservations).

(** The body of the loop that computes the two amounts of a reservation. *)
Definition withBalance (reservation : ReservationWithTransactions.t)
  : ReservationBalance.t :=
  let transactions := ReservationWithTransactions.transactions reservation in
  {| ReservationBalance.reservation := reservation;
     ReservationBalance.receivables :=
       round (sumGross (filter isReceivable transactions));
     ReservationBalance.liabilities :=
       round (sumGross (filter isLiability transactions)) |}.

(** [r.receivables || r.liabilities]. *)
Definition hasOpenBalance (r : ReservationBalance.t) : bool :=
  truthy (ReservationBalance.receivables r)
  || truthy (ReservationBalance.liabilities r).

Definition reservationLink (property id : string) : string :=
  "=HYPERLINK(" ++ dquote ++ "https://app.apaleo.com/" ++ property
  ++ "/reservations/" ++ id ++ dquote ++ "; " ++ dquote ++ id ++ dquote ++ ")".

(** A row of the earlier report; [toFixed] stands for [x.toFixed(2)]. *)
Definition reservationRow (toFixed : Q -> string) (property : string)
  (r : ReservationBalance.t) : list string :=
  let reservation := ReservationBalance.reservation r in
  [ reservationLink property (ReservationWithTransactions.id reservation);
    ReservationWithTransactions.arrival reservation;
    ReservationWithTransactions.departure reservation;
    ReservationWithTransactions.status reservation;
    toFixed (ReservationBalance.receivables r);
    toFixed (ReservationBalance.liabilities r) ].

Definition generateReservationsReport (toFixed : Q -> string)
  (property : string) (data : list Transaction.t)
  : Result ReservationsReport.t :=
  reservations <- reservationsWithTransactions data ;;
  let balances := map withBalance reservations in
  let cleanReservations := filter hasOpenBalance balances in
  Ok {| ReservationsReport.rows :=
          map (reservationRow toFixed property) cleanReservations;
        ReservationsReport.reservationsWithBalances :=
          List.length reservations;
        ReservationsReport.withOpenBalance :=
          List.length cleanReservations |}.

Section Aggregation.

(** The conversion of a number to a string that template literals apply. *)
Variable numberToString : Q -> string.

Definition getVatTypeKey (vatOrTaxInfo : option TaxAmountModel.t) : string :=
  match vatOrTaxInfo with
  | Some tax =>
      if negb (TaxAmountModel.type tax =? "Without") then
        TaxAmountModel.type tax ++ "-"
        ++ numberToString (TaxAmountModel.percent tax)
      else "Without"
  | None => "Without"
  end.

(** The callback of the reduction over the liability transactions of a
    record; [vatTypesInfo] is the registry shared by all records. *)
Definition liabilityStep (acc : Obj.t Q * Obj.t VatInfo.t)
  (t : Transaction.t) : Obj.t Q * Obj.t VatInfo.t :=
  let '(info, vatTypesInfo) := acc in
  let tax := firstTax t in
  let key := getVatTypeKey tax in
  let amount := Transaction.grossAmount t in
  let info := Obj.put key (orZero (Obj.get key info) + amount)%Q info in
  let info := Obj.put "total" (readNumber "total" info + amount)%Q info in
  let vatTypesInfo :=
    match Obj.get key vatTypesInfo with
    | Some _ => vatTypesInfo
    | None =>
        Obj.put key
          match tax with
          | Some tax =>
              {| VatInfo.key := key;
                 VatInfo.type := Some (TaxAmountModel.type tax);
                 VatInfo.percent := Some (TaxAmountModel.percent tax) |}
          | None =>
              {| VatInfo.key := key;
                 VatInfo.type := None;
                 VatInfo.percent := None |}
          end
          vatTypesInfo
    end in
  (info, vatTypesInfo).

Definition recordLiabilities (vatTypesInfo : Obj.t VatInfo.t)
  (record : LRReportRowItemModel.t) : Obj.t Q * Obj.t VatInfo.t :=
  fold_left liabilityStep
    (filter isLiability (LRReportRowItemModel.transactions record))
    ([("total", 0%Q)], vatTypesInfo).

(** The body of the loop over the grouped records. *)
Definition processRecord (st : State.t) (record : LRReportRowItemModel.t)
  : State.t :=
  let receivables := recordReceivables record in
  let '(liabilities, vatTypesInfo) :=
    recordLiabilities (State.vatTypesInfo st) record in
  if truthy receivables || truthy (round (readNumber "total" liabilities)) then
    let record := setReceivables record receivables in
    let totalsReceivables :=
      (Totals.receivables (State.totals st) + receivables)%Q in
    let '(stored, totalsLiabilities) :=
      fold_left (storeStep liabilities) (Obj.keys liabilities)
        (LRReportRowItemModel.liabilities record,
         Totals.liabilities (State.totals st)) in
    let record := setLiabilities record stored in
    let totals :=
      {| Totals.receivables := totalsReceivables;
         Totals.liabilities := totalsLiabilities |} in
    if LRReportRowItemModel.type record =? "Guest" then
      {| State.vatTypesInfo := vatTypesInfo;
         State.guestRecords := State.guestRecords st ++ [record];
         State.externalRecords := State.externalRecords st;
         State.totals := totals |}
    else
      {| State.vatTypesInfo := vatTypesInfo;
         State.guestRecords := State.guestRecords st;
         State.externalRecords := State.externalRecords st ++ [record];
         State.totals := totals |}
  else
    {| State.vatTypesInfo := vatTypesInfo;
       State.guestRecords := State.guestRecords st;
       State.externalRecords := State.externalRecords st;
       State.totals := State.totals st |}.

Definition aggregate (groupedRecords : list LRReportRowItemModel.t) : State.t :=
  fold_left processRecord groupedRecords initialState.

Definition usedVatTypes (st : State.t) : list string :=
  Obj.keys (Totals.liabilities (State.totals st)).

(** The registry entries behind the visible columns, in column order. *)
Definition visibleVatTypes (st : State.t) : list VatInfo.t :=
  sortBy comparePercent
    (filter (fun type => includes (usedVatTypes st) (VatInfo.key type))
       (Obj.values (State.vatTypesInfo st))).

Definition toColumn (vat : VatInfo.t) : Column.t :=
  {| Column.displayName :=
       match VatInfo.type vat with
       | Some type =>
           if truthyString type then
             "Liab. " ++ type ++ " "
             ++ numberToString (orZero (VatInfo.percent vat)) ++ "%"
           else "Liab. " ++ VatInfo.key vat
       | None => "Liab. " ++ VatInfo.key vat
       end;
     Column.key := VatInfo.key vat |}.

Definition liabilitiesColumns (st : State.t) : list Column.t :=
  map toColumn (visibleVatTypes st).

Definition dataRow (property : string) (columns : list Column.t)
  (r : LRReportRowItemModel.t) : list Cell :=
  [ CStr (createHyperLinkForRecord property r);
    optionalCell (LRReportRowItemModel.arrival r);
    optionalCell (LRReportRowItemModel.departure r);
    optionalCell (LRReportRowItemModel.status r);
    CNum (LRReportRowItemModel.receivables r);
    CNum (readNumber "total" (LRReportRowItemModel.liabilities r)) ]
  ++ map (fun c =>
            CNum (orZero (Obj.get (Column.key c) (LRReportRowItemModel.liabilities r))))
       columns.

Definition totalsRow (columns : list Column.t) (totals : Totals.t) : list Cell :=
  [ CStr EmptyString; CStr EmptyString; CStr EmptyString; CStr "Total";
    CNum (round (Totals.receivables totals));
    CNum (round (readNumber "total" (Totals.liabilities totals))) ]
  ++ map (fun c =>
            CNum (round (readNumber (Column.key c) (Totals.liabilities totals))))
       columns.

(** The records of the report in row order. *)
Definition survivingRecords (st : State.t) : list LRReportRowItemModel.t :=
  State.guestRecords st ++ State.externalRecords st.

Definition assemble (property : string) (processed : nat) (st : State.t)
  : Report.t :=
  let columns := liabilitiesColumns st in
  let rows := map (dataRow property columns) (survivingRecords st) in
  let totalRow := totalsRow columns (State.totals st) in
  {| Report.liabilitiesColumns := columns;
     Report.header :=
       [ "Reservation ID"; "Arrival"; "Departure"; "Status"; "Receivables";
         "Liabilities" ] ++ map Column.displayName columns;
     Report.rows := rows;
     Report.totalRow := totalRow;
     Report.body :=
       match rows with
       | [] => []
       | _ :: _ => rows ++ [totalRow]
       end;
     Report.transactionsProcessed := processed;
     Report.recordsTotal := List.length (survivingRecords st);
     Report.reservations := List.length (State.guestRecords st);
     Report.externalFolios := List.length (State.externalRecords st) |}.

(** [generateORLReport], from the transactions that [getGrossTransactions]
    returned to the values written to the sheet. *)
Definition generateORLReport (property : string) (data : list Transaction.t)
  : Result Report.t :=
  let transactions := filter isGuestOrExternal data in
  groupedRecords <- groupTransactions transactions ;;
  Ok (assemble property (List.length transactions) (aggregate groupedRecords)).

(** [generateORLReport], with the grouping on the plain object. *)
Definition generateORLReportOnPlainObject (property : string)
  (data : list Transaction.t) : Result Report.t :=
  let transactions := filter isGuestOrExternal data in
  groupedRecords <- Plain.groupTransactions transactions ;;
  Ok (assemble property (List.length transactions) (aggregate groupedRecords)).

(** ** Specification-side vocabulary *)

(** Every [Guest] transaction carries the reservation that [getRecordId]
    and [createRecordForTransaction] read with a non-null assertion. *)
Definition hasReservation (t : Transaction.t) : bool :=
  if Transaction.referenceType t =? "Guest" then
    match Transaction.reservation t with
    | Some _ => true
    | None => false
    end
  else true.


(** [t] maps to the grouping key [k]. *)
Definition hasRecordId (k : string) (t : Transaction.t) : bool :=
  match getRecordId t with
  | Ok k' => k' =? k
  | Throw _ => false
  end.

(** An exact sum. *)
Definition sumQ (l : list Q) : Q := fold_right Qplus 0%Q l.

(** The value of a number that may be [undefined], read as 0. *)
Definition valueOr0 (x : option Q) : Q :=
  match x with
  | Some v => v
  | None => 0%Q
  end.

(** A dash occurs in the string. *)
Fixpoint hasDash (s : string) : bool :=
  match s with
  | EmptyString => false
  | String c s' => Ascii.eqb c "-"%char || hasDash s'
  end.

Definition setTransactions (record : LRReportRowItemModel.t)
  (ts : list Transaction.t) : LRReportRowItemModel.t :=
  {| LRReportRowItemModel.id := LRReportRowItemModel.id record;
     LRReportRowItemModel.type := LRReportRowItemModel.type record;
     LRReportRowItemModel.arrival := LRReportRowItemModel.arrival record;
     LRReportRowItemModel.departure := LRReportRowItemModel.departure record;
     LRReportRowItemModel.status := LRReportRowItemModel.status record;
     LRReportRowItemModel.transactions := ts;
     LRReportRowItemModel.receivables := LRReportRowItemModel.receivables record;
     LRReportRowItemModel.liabilities := LRReportRowItemModel.liabilities record |}.

(** [r] is the record of the grouping key [k] over the transactions [ts]:
    it holds the transactions of [ts] that map to [k], in the order of [ts],
    and is otherwise the record constructed for the first of them. *)
Definition isRecordOf (k : string) (ts : list Transaction.t)
  (r : LRReportRowItemModel.t) : Prop :=
  exists t0 rest r0,
    filter (hasRecordId k) ts = t0 :: rest
    /\ createRecordForTransaction t0 = Ok r0
    /\ r = setTransactions r0 (t0 :: rest).

(** The invariant of the reduction that builds the groups, after the
    transactions [ts]. *)
Definition groupsOf (ts : list Transaction.t)
  (groups : Obj.t LRReportRowItemModel.t) : Prop :=
  NoDup (Obj.keys groups)
  /\ (forall t, In t ts ->
       exists k, getRecordId t = Ok k /\ In k (Obj.keys groups))
  /\ (forall k r, Obj.get k groups = Some r -> isRecordOf k ts r).

(** The VAT category key of a transaction. *)
Definition vatKey (t : Transaction.t) : string :=
  getVatTypeKey (firstTax t).

(** The registry entry that a transaction contributes when its key is new. *)
Definition vatInfoOf (t : Transaction.t) : VatInfo.t :=
  match firstTax t with
  | Some tax =>
      {| VatInfo.key := vatKey t;
         VatInfo.type := Some (TaxAmountModel.type tax);
         VatInfo.percent := Some (TaxAmountModel.percent tax) |}
  | None =>
      {| VatInfo.key := vatKey t;
         VatInfo.type := None;
         VatInfo.percent := None |}
  end.

(** The two components of [liabilityStep]: the running totals of the
    record and the registry. *)
Definition infoStep (info : Obj.t Q) (t : Transaction.t) : Obj.t Q :=
  let key := vatKey t in
  let amount := Transaction.grossAmount t in
  let info := Obj.put key (orZero (Obj.get key info) + amount)%Q info in
  Obj.put "total" (readNumber "total" info + amount)%Q info.

Definition registerStep (vatTypesInfo : Obj.t VatInfo.t) (t : Transaction.t)
  : Obj.t VatInfo.t :=
  match Obj.get (vatKey t) vatTypesInfo with
  | Some _ => vatTypesInfo
  | None => Obj.put (vatKey t) (vatInfoOf t) vatTypesInfo
  end.

Definition liabilityTransactions (r : LRReportRowItemModel.t)
  : list Transaction.t :=
  filter isLiability (LRReportRowItemModel.transactions r).

(** The unrounded liabilities of a record: [total] and one amount per VAT
    category key. *)
Definition liabilitiesOf (r : LRReportRowItemModel.t) : Obj.t Q :=
  fold_left infoStep (liabilityTransactions r) [("total", 0%Q)].


(** The retention test of the loop over the grouped records. *)
Definition retained (r : LRReportRowItemModel.t) : bool :=
  truthy (recordReceivables r)
  || truthy (round (readNumber "total" (liabilitiesOf r))).

Definition roundEntries (o : Obj.t Q) : Obj.t Q :=
  map (fun kv => (fst kv, round (snd kv))) o.

(** A retained record as the loop leaves it: the rounded receivables and
    the rounded liabilities are stored on it. *)
Definition finalRecord (r : LRReportRowItemModel.t) : LRReportRowItemModel.t :=
  setLiabilities (setReceivables r (recordReceivables r))
    (roundEntries (liabilitiesOf r)).

Definition isGuest (r : LRReportRowItemModel.t) : bool :=
  LRReportRowItemModel.type r =? "Guest".

(** A record as [createRecordForTransaction] leaves its amounts. *)
Definition fresh (r : LRReportRowItemModel.t) : Prop :=
  LRReportRowItemModel.liabilities r = [("total", 0%Q)].

(** The invariant of the running totals of a record, after the liability
    transactions [ts]. *)
Definition infoOf (ts : list Transaction.t) (info : Obj.t Q) : Prop :=
  NoDup (Obj.keys info)
  /\ (exists v rest, info = ("total", v) :: rest)
  /\ (valueOr0 (Obj.get "total" info)
       == sumQ (map Transaction.grossAmount ts))%Q
  /\ (forall k, k <> "total" ->
       (In k (Obj.keys info) <-> exists t, In t ts /\ vatKey t = k))
  /\ (forall k, k <> "total" ->
       (valueOr0 (Obj.get k info)
        == sumQ (map Transaction.grossAmount
                   (filter (fun t => vatKey t =? k) ts)))%Q).

(** The two components of the loop over the keys of the liabilities. *)
Definition storeRecord (liabilities : Obj.t Q) (keys : list string)
  (stored : Obj.t Q) : Obj.t Q :=
  fold_left (fun s k => Obj.put k (round (readNumber k liabilities)) s)
    keys stored.

Definition storeTotals (liabilities : Obj.t Q) (keys : list string)
  (totalsLiabilities : Obj.t Q) : Obj.t Q :=
  fold_left
    (fun tl k =>
       Obj.put k (orZero (Obj.get k tl) + round (readNumber k liabilities))%Q tl)
    keys totalsLiabilities.

(** The components of [processRecord]. *)
Definition registerRecord (vatTypesInfo : Obj.t VatInfo.t)
  (r : LRReportRowItemModel.t) : Obj.t VatInfo.t :=
  fold_left registerStep (liabilityTransactions r) vatTypesInfo.

Definition storedRecord (r : LRReportRowItemModel.t) : LRReportRowItemModel.t :=
  setLiabilities (setReceivables r (recordReceivables r))
    (storeRecord (liabilitiesOf r) (Obj.keys (liabilitiesOf r))
       (LRReportRowItemModel.liabilities r)).

Definition addTotals (totals : Totals.t) (r : LRReportRowItemModel.t)
  : Totals.t :=
  {| Totals.receivables := (Totals.receivables totals + recordReceivables r)%Q;
     Totals.liabilities :=
       storeTotals (liabilitiesOf r) (Obj.keys (liabilitiesOf r))
         (Totals.liabilities totals) |}.






(** The kind, the identity and the stay of the record [r] are those of the
    transaction [t0], the dates cut to their first 10 characters. *)
Definition staticFieldsOf (t0 : Transaction.t) (r : LRReportRowItemModel.t)
  : Prop :=
  (Transaction.referenceType t0 = "Guest"
   /\ exists res,
        Transaction.reservation t0 = Some res
        /\ LRReportRowItemModel.type r = "Guest"
        /\ LRReportRowItemModel.id r = ReservationModel.id res
        /\ LRReportRowItemModel.arrival r
           = Some (substr0 10 (ReservationModel.arrival res))
        /\ LRReportRowItemModel.departure r
           = Some (substr0 10 (ReservationModel.departure res))
        /\ LRReportRowItemModel.status r = Some (ReservationModel.status res))
  \/ (Transaction.referenceType t0 = "External"
      /\ LRReportRowItemModel.type r = "External"
      /\ LRReportRowItemModel.id r = Transaction.reference t0
      /\ LRReportRowItemModel.arrival r = None
      /\ LRReportRowItemModel.departure r = None
      /\ LRReportRowItemModel.status r = None).

(** The retained records of either kind, in grouping order. *)
Definition retainedGuests (rs : list LRReportRowItemModel.t)
  : list LRReportRowItemModel.t :=
  filter (fun r => retained r && isGuest r) rs.

Definition retainedExternals (rs : list LRReportRowItemModel.t)
  : list LRReportRowItemModel.t :=
  filter (fun r => retained r && negb (isGuest r)) rs.


(** ** Example transactions *)

Definition account (type : string) : AccountModel.t :=
  {| AccountModel.type := type |}.

Definition reservationR1 : ReservationModel.t :=
  {| ReservationModel.id := "R1";
     ReservationModel.arrival := "2024-05-01T14:00:00+02:00";
     ReservationModel.departure := "2024-05-03T11:00:00+02:00";
     ReservationModel.status := "InHouse" |}.

(** A receivable of [amount] on the reservation R1. *)
Definition guestReceivable (amount : Q) : Transaction.t :=
  {| Transaction.referenceType := "Guest";
     Transaction.reference := EmptyString;
     Transaction.reservation := Some reservationR1;
     Transaction.grossAmount := amount;
     Transaction.debitedAccount := account "Receivables";
     Transaction.creditedAccount := account "Revenues";
     Transaction.taxes := None |}.


(** An untaxed liability of [amount] on the external folio [reference]. *)
Definition externalLiability (reference : string) (amount : Q)
  : Transaction.t :=
  {| Transaction.referenceType := "External";
     Transaction.reference := reference;
     Transaction.reservation := None;
     Transaction.grossAmount := amount;
     Transaction.debitedAccount := account "Payments";
     Transaction.creditedAccount := account "Liabilities";
     Transaction.taxes := None |}.






(** ** Vocabulary of the further properties *)




(** The record that the report builds for a reservation of the earlier
    version. *)
Definition ofReservation (r : ReservationWithTransactions.t)
  : LRReportRowItemModel.t :=
  {| LRReportRowItemModel.id := ReservationWithTransactions.id r;
     LRReportRowItemModel.type := "Guest";
     LRReportRowItemModel.arrival := Some (ReservationWithTransactions.arrival r);
     LRReportRowItemModel.departure :=
       Some (ReservationWithTransactions.departure r);
     LRReportRowItemModel.status := Some (ReservationWithTransactions.status r);
     LRReportRowItemModel.transactions :=
       ReservationWithTransactions.transactions r;
     LRReportRowItemModel.receivables := 0;
     LRReportRowItemModel.liabilities := [("total", 0%Q)] |}.

Definition mapValues {A B : Type} (f : A -> B) (o : Obj.t A) : Obj.t B :=
  map (fun kv => (fst kv, f (snd kv))) o.

(** What a row of the earlier version shows of a record of the report. *)
Definition reservationCells (toFixed : Q -> string) (property : string)
  (r : LRReportRowItemModel.t) : list (option string) :=
  [ Some (reservationLink property (LRReportRowItemModel.id r));
    LRReportRowItemModel.arrival r;
    LRReportRowItemModel.departure r;
    LRReportRowItemModel.status r;
    Some (toFixed (LRReportRowItemModel.receivables r));
    Some (toFixed (readNumber "total" (LRReportRowItemModel.liabilities r))) ].

(** The grouping key of [t] can be read and is not a name that the
    accumulator inherits. *)
Definition groupable (t : Transaction.t) : bool :=
  match getRecordId t with
  | Ok k => negb (Plain.inherits k)
  | Throw _ => false
  end.

(** No key of the groups is inherited. *)
Definition ownKeys (groups : Obj.t LRReportRowItemModel.t) : Prop :=
  forall k, In k (Obj.keys groups) -> Plain.inherits k = false.

(** The records in the order in which [Object.values] lists them when
    they are stored under their ids. *)
Definition hasIndexId (r : LRReportRowItemModel.t) : bool :=
  Plain.isIndex (LRReportRowItemModel.id r).

Definition compareId (a b : LRReportRowItemModel.t) : Q :=
  Plain.compareIndex (LRReportRowItemModel.id a) (LRReportRowItemModel.id b).

Definition inEnumerationOrder (rs : list LRReportRowItemModel.t)
  : list LRReportRowItemModel.t :=
  sortBy compareId (filter hasIndexId rs)
  ++ filter (fun r => negb (hasIndexId r)) rs.




(** External folios whose references are numbers, and one that is not. *)
Definition numberedFolios : list Transaction.t :=
  [ externalLiability "B7" 1; externalLiability "10" 2;
    externalLiability "9" 3; externalLiability "007" 4 ].

(** * Facts *)

(** ** Objects *)

Lemma get_put_same {A : Type} (k : string) (v : A) (o : Obj.t A) :
  Obj.get k (Obj.put k v o) = Some v.
Proof.
  induction o as [|[k' v'] o IH]; simpl.
  - now rewrite String.eqb_refl.
  - destruct (k =? k') eqn:E; simpl; rewrite E; auto.
Qed.

Lemma get_put_other {A : Type} (k k' : string) (v : A) (o : Obj.t A) :
  k <> k' -> Obj.get k' (Obj.put k v o) = Obj.get k' o.
Proof.
  intros Hne. induction o as [|[k0 v0] o IH]; simpl.
  - destruct (k' =? k) eqn:E; auto.
    apply String.eqb_eq in E. congruence.
  - destruct (k =? k0) eqn:E; simpl.
    + apply String.eqb_eq in E. subst k0.
      destruct (k' =? k) eqn:E'; auto.
      apply String.eqb_eq in E'. congruence.
    + now rewrite IH.
Qed.

Lemma get_None_iff {A : Type} (k : string) (o : Obj.t A) :
  Obj.get k o = None <-> ~ In k (Obj.keys o).
Proof.
  induction o as [|[k' v'] o IH]; simpl.
  - tauto.
  - destruct (k =? k') eqn:E.
    + apply String.eqb_eq in E. subst. split; [discriminate | tauto].
    + apply String.eqb_neq in E. rewrite IH. intuition congruence.
Qed.

Lemma get_Some_iff {A : Type} (k : string) (o : Obj.t A) :
  (exists v, Obj.get k o = Some v) <-> In k (Obj.keys o).
Proof.
  destruct (Obj.get k o) as [v|] eqn:E.
  - split; [intros _ | intros _; eauto].
    destruct (in_dec string_dec k (Obj.keys o)) as [H|H]; auto.
    apply get_None_iff in H. congruence.
  - split.
    + intros [v Hv]. discriminate.
    + intros H. apply get_None_iff in E. contradiction.
Qed.


Lemma In_get_Some {A : Type} (k : string) (v : A) (o : Obj.t A) :
  NoDup (Obj.keys o) -> In (k, v) o -> Obj.get k o = Some v.
Proof.
  induction o as [|[k' v'] o IH]; simpl; [tauto|].
  intros Hnd [H|H]; inversion Hnd as [|? ? Hnot Hnd']; subst.
  - injection H as -> ->. now rewrite String.eqb_refl.
  - destruct (k =? k') eqn:E.
    + apply String.eqb_eq in E. subst k'.
      exfalso. apply Hnot. change k with (fst (k, v)). now apply in_map.
    + auto.
Qed.

Lemma put_present {A : Type} (k : string) (v : A) (o : Obj.t A) :
  In k (Obj.keys o) -> Obj.keys (Obj.put k v o) = Obj.keys o.
Proof.
  induction o as [|[k' v'] o IH]; simpl; [tauto|].
  intros H. destruct (k =? k') eqn:E; simpl; auto.
  f_equal. apply IH. destruct H as [H|H]; auto.
  subst. now rewrite String.eqb_refl in E.
Qed.

Lemma put_absent {A : Type} (k : string) (v : A) (o : Obj.t A) :
  ~ In k (Obj.keys o) -> Obj.put k v o = o ++ [(k, v)].
Proof.
  induction o as [|[k' v'] o IH]; simpl; auto.
  intros H. destruct (k =? k') eqn:E.
  - apply String.eqb_eq in E. subst. tauto.
  - f_equal. apply IH. tauto.
Qed.

Lemma keys_put {A : Type} (k : string) (v : A) (o : Obj.t A) :
  Obj.keys (Obj.put k v o)
  = if in_dec string_dec k (Obj.keys o) then Obj.keys o
    else Obj.keys o ++ [k].
Proof.
  destruct (in_dec string_dec k (Obj.keys o)) as [H|H].
  - now apply put_present.
  - rewrite put_absent by assumption. unfold Obj.keys. now rewrite map_app.
Qed.

Lemma In_keys_put {A : Type} (k k' : string) (v : A) (o : Obj.t A) :
  In k' (Obj.keys (Obj.put k v o)) <-> k' = k \/ In k' (Obj.keys o).
Proof.
  rewrite keys_put. destruct (in_dec string_dec k (Obj.keys o)) as [H|H].
  - intuition congruence.
  - rewrite in_app_iff. simpl. intuition congruence.
Qed.

Lemma NoDup_keys_put {A : Type} (k : string) (v : A) (o : Obj.t A) :
  NoDup (Obj.keys o) -> NoDup (Obj.keys (Obj.put k v o)).
Proof.
  intros Hnd. rewrite keys_put.
  destruct (in_dec string_dec k (Obj.keys o)) as [H|H]; auto.
  apply NoDup_rev in Hnd. rewrite <- (rev_involutive (_ ++ _)).
  apply NoDup_rev. rewrite rev_app_distr. simpl.
  constructor; auto. now rewrite <- in_rev.
Qed.

(** ** Numbers *)

Lemma truthy_false_iff (x : Q) : truthy x = false <-> (x == 0)%Q.
Proof.
  unfold truthy. rewrite negb_false_iff. apply Qeq_bool_iff.
Qed.

Lemma orZero_value (x : option Q) : (orZero x == valueOr0 x)%Q.
Proof.
  destruct x as [v|]; simpl; [|reflexivity].
  destruct (truthy v) eqn:E; [reflexivity|].
  apply truthy_false_iff in E. now rewrite E.
Qed.

Lemma readNumber_value (k : string) (o : Obj.t Q) :
  readNumber k o = valueOr0 (Obj.get k o).
Proof. reflexivity. Qed.

(** Equal numbers have the same rounding, whatever fractions stand for
    them. *)
Lemma round_proper (x y : Q) : (x == y)%Q -> round x = round y.
Proof.
  intros H. unfold round. apply Qred_complete.
  assert (E : Qfloor (x * 100 + (1 # 2)) = Qfloor (y * 100 + (1 # 2))).
  { apply Qfloor_comp. now rewrite H. }
  now rewrite E.
Qed.

Lemma sumQ_app (l1 l2 : list Q) : (sumQ (l1 ++ l2) == sumQ l1 + sumQ l2)%Q.
Proof.
  induction l1 as [|x l1 IH]; simpl.
  - now rewrite Qplus_0_l.
  - rewrite IH. apply Qplus_assoc.
Qed.

Lemma fold_left_Qplus {A : Type} (f : A -> Q) (l : list A) (a : Q) :
  (fold_left (fun sum t => sum + f t) l a == a + sumQ (map f l))%Q.
Proof.
  revert a. induction l as [|x l IH]; intros a; simpl.
  - now rewrite Qplus_0_r.
  - rewrite IH. now rewrite Qplus_assoc.
Qed.

(** ** Strings *)

Lemma hasDash_app (a b : string) : hasDash (a ++ "-" ++ b) = true.
Proof.
  induction a as [|c a IH]; simpl in *; auto.
  rewrite IH. apply orb_true_r.
Qed.

(** ** Grouping *)

Lemma hasRecordId_true (k : string) (t : Transaction.t) :
  hasRecordId k t = true <-> getRecordId t = Ok k.
Proof.
  unfold hasRecordId. destruct (getRecordId t) as [k'|e].
  - rewrite String.eqb_eq. split; congruence.
  - split; discriminate.
Qed.

Lemma createRecord_transactions (t : Transaction.t) (r : LRReportRowItemModel.t) :
  createRecordForTransaction t = Ok r ->
  r = setTransactions r [t].
Proof.
  unfold createRecordForTransaction.
  destruct (Transaction.referenceType t =? "Guest").
  - destruct (Transaction.reservation t); [|discriminate].
    now intros [= <-].
  - destruct (Transaction.referenceType t =? "External"); [|discriminate].
    now intros [= <-].
Qed.

Lemma groupStep_invariant (ts : list Transaction.t) (t : Transaction.t)
  (groups groups' : Obj.t LRReportRowItemModel.t) :
  groupsOf ts groups ->
  groupStep groups t = Ok groups' ->
  groupsOf (ts ++ [t]) groups'.
Proof.
  intros (Hnd & Hcov & Hrec). unfold groupStep.
  destruct (getRecordId t) as [gid|e] eqn:Hid; simpl; [|discriminate].
  assert (Hfilter : forall k, filter (hasRecordId k) (ts ++ [t])
            = filter (hasRecordId k) ts ++ (if k =? gid then [t] else [])).
  { intros k. rewrite filter_app. simpl. unfold hasRecordId at 2.
    rewrite Hid. rewrite (String.eqb_sym gid k).
    now destruct (k =? gid). }
  destruct (Obj.get gid groups) as [group|] eqn:Hget.
  - (* the group exists: the transaction is pushed *)
    intros [= <-]. split; [now apply NoDup_keys_put|]. split.
    + intros t' Hin. apply in_app_or in Hin. destruct Hin as [Hin|[<-|[]]].
      * destruct (Hcov _ Hin) as (k & Hk & Hkin). exists k. split; auto.
        apply In_keys_put. auto.
      * exists gid. split; auto. apply In_keys_put. auto.
    + intros k r. destruct (string_dec gid k) as [<-|Hne].
      * rewrite get_put_same. intros [= <-].
        destruct (Hrec _ _ Hget) as (t0 & rest & r0 & Hf & Hc & ->).
        exists t0, (rest ++ [t]), r0. rewrite Hfilter, Hf, String.eqb_refl.
        repeat split; auto.
      * rewrite get_put_other by assumption. intros Hk.
        destruct (Hrec _ _ Hk) as (t0 & rest & r0 & Hf & Hc & ->).
        exists t0, rest, r0. rewrite Hfilter, Hf.
        apply not_eq_sym in Hne. apply String.eqb_neq in Hne. rewrite Hne.
        rewrite app_nil_r. repeat split; auto.
  - (* a new group *)
    destruct (createRecordForTransaction t) as [record|e] eqn:Hc; simpl;
      [|discriminate].
    intros [= <-]. split; [now apply NoDup_keys_put|]. split.
    + intros t' Hin. apply in_app_or in Hin. destruct Hin as [Hin|[<-|[]]].
      * destruct (Hcov _ Hin) as (k & Hk & Hkin). exists k. split; auto.
        apply In_keys_put. auto.
      * exists gid. split; auto. apply In_keys_put. auto.
    + assert (Hnone : filter (hasRecordId gid) ts = []).
      { apply get_None_iff in Hget.
        destruct (filter (hasRecordId gid) ts) as [|t' l] eqn:Hf; auto.
        exfalso. assert (Hin : In t' (filter (hasRecordId gid) ts))
          by (rewrite Hf; now left).
        apply filter_In in Hin. destruct Hin as [Hin Hk].
        apply hasRecordId_true in Hk.
        destruct (Hcov _ Hin) as (k & Hk' & Hkin). congruence. }
      intros k r. destruct (string_dec gid k) as [<-|Hne].
      * rewrite get_put_same. intros [= <-].
        exists t, [], record. rewrite Hfilter, Hnone, String.eqb_refl.
        repeat split; auto. now apply createRecord_transactions.
      * rewrite get_put_other by assumption. intros Hk.
        destruct (Hrec _ _ Hk) as (t0 & rest & r0 & Hf & Hc' & ->).
        exists t0, rest, r0. rewrite Hfilter, Hf.
        apply not_eq_sym in Hne. apply String.eqb_neq in Hne. rewrite Hne.
        rewrite app_nil_r. repeat split; auto.
Qed.

Lemma reduce_groupStep_invariant (ts done : list Transaction.t)
  (groups groups' : Obj.t LRReportRowItemModel.t) :
  groupsOf done groups ->
  reduceM groupStep ts groups = Ok groups' ->
  groupsOf (done ++ ts) groups'.
Proof.
  revert done groups. induction ts as [|t ts IH]; intros done groups Hinv; simpl.
  - intros [= <-]. now rewrite app_nil_r.
  - destruct (groupStep groups t) as [g|e] eqn:Hstep; simpl; [|discriminate].
    intros Hred. replace (done ++ t :: ts) with ((done ++ [t]) ++ ts)
      by (now rewrite <- app_assoc).
    apply (IH _ g); auto. eapply groupStep_invariant; eauto.
Qed.

Lemma groupsOf_nil : groupsOf [] [].
Proof.
  split; [constructor|]. split.
  - intros t [].
  - intros k r. discriminate.
Qed.

Lemma groupTransactions_groupsOf (ts : list Transaction.t)
  (groupedRecords : list LRReportRowItemModel.t) :
  groupTransactions ts = Ok groupedRecords ->
  exists groups, groupsOf ts groups /\ groupedRecords = Obj.values groups.
Proof.
  unfold groupTransactions.
  destruct (reduceM groupStep ts []) as [groups|e] eqn:Hred; simpl;
    [|discriminate].
  intros [= <-]. exists groups. split; auto.
  apply (reduce_groupStep_invariant ts [] [] groups groupsOf_nil Hred).
Qed.

Lemma getRecordId_total (t : Transaction.t) :
  hasReservation t = true -> exists k, getRecordId t = Ok k.
Proof.
  unfold hasReservation, getRecordId.
  destruct (Transaction.referenceType t =? "Guest"); eauto.
  destruct (Transaction.reservation t); [eauto | discriminate].
Qed.

Lemma createRecord_total (t : Transaction.t) :
  isGuestOrExternal t = true -> hasReservation t = true ->
  exists r, createRecordForTransaction t = Ok r.
Proof.
  unfold isGuestOrExternal, hasReservation, createRecordForTransaction.
  destruct (Transaction.referenceType t =? "Guest"); simpl.
  - destruct (Transaction.reservation t); [eauto | discriminate].
  - intros ->. eauto.
Qed.

Lemma groupStep_total (groups : Obj.t LRReportRowItemModel.t)
  (t : Transaction.t) :
  isGuestOrExternal t = true -> hasReservation t = true ->
  exists groups', groupStep groups t = Ok groups'.
Proof.
  intros Hge Hres. unfold groupStep.
  destruct (getRecordId_total t Hres) as [k ->]. simpl.
  destruct (Obj.get k groups); [eauto|].
  destruct (createRecord_total t Hge Hres) as [r ->]. simpl. eauto.
Qed.



Lemma forallb_filter_same {A : Type} (f : A -> bool) (l : list A) :
  forallb f (filter f l) = true.
Proof.
  apply forallb_forall. intros x Hx. now apply filter_In in Hx.
Qed.



(** ** Liabilities of a record *)

Lemma vatKey_not_total (t : Transaction.t) : vatKey t <> "total".
Proof.
  unfold vatKey, getVatTypeKey.
  destruct (firstTax t) as [tax|]; [|discriminate].
  destruct (negb (TaxAmountModel.type tax =? "Without")); [|discriminate].
  intros H. pose proof (hasDash_app (TaxAmountModel.type tax)
    (numberToString (TaxAmountModel.percent tax))) as Hd.
  rewrite H in Hd. discriminate.
Qed.

Lemma liabilityStep_split (info : Obj.t Q) (vats : Obj.t VatInfo.t)
  (t : Transaction.t) :
  liabilityStep (info, vats) t
  = (infoStep info t, registerStep vats t).
Proof.
  unfold liabilityStep, infoStep, registerStep,
    vatInfoOf, vatKey.
  destruct (Obj.get _ vats); destruct (firstTax t); reflexivity.
Qed.

Lemma fold_liabilityStep_split (ts : list Transaction.t) (info : Obj.t Q)
  (vats : Obj.t VatInfo.t) :
  fold_left (liabilityStep) ts (info, vats)
  = (fold_left infoStep ts info, fold_left registerStep ts vats).
Proof.
  revert info vats. induction ts as [|t ts IH]; intros info vats; simpl.
  - reflexivity.
  - change (fold_left liabilityStep ts (liabilityStep (info, vats) t) =
            (fold_left infoStep ts (infoStep info t),
             fold_left registerStep ts (registerStep vats t))).
    now rewrite liabilityStep_split, IH.
Qed.

Lemma infoOf_initial : infoOf [] [("total", 0%Q)].
Proof.
  split; [|split; [|split; [|split]]]; simpl.
  - repeat constructor. intros [].
  - eauto.
  - reflexivity.
  - intros k Hk. split.
    + intros [H|[]]. congruence.
    + intros (t & [] & _).
  - intros k Hk. destruct (k =? "total"); reflexivity.
Qed.

Lemma infoStep_invariant (ts : list Transaction.t) (t : Transaction.t)
  (info : Obj.t Q) :
  infoOf ts info -> infoOf (ts ++ [t]) (infoStep info t).
Proof.
  intros (Hnd & (v0 & rest & Hhd) & Htot & Hkeys & Hval).
  pose proof (vatKey_not_total t) as Hkt.
  unfold infoStep. set (a := Transaction.grossAmount t).
  set (info1 := Obj.put (vatKey t) (orZero (Obj.get (vatKey t) info) + a)%Q info).
  assert (Htot1 : Obj.get "total" info1 = Obj.get "total" info).
  { unfold info1. now rewrite get_put_other. }
  split; [now apply NoDup_keys_put, NoDup_keys_put|]. split.
  { unfold info1. subst info. simpl.
    apply String.eqb_neq in Hkt. rewrite Hkt. simpl. eauto. }
  split.
  { rewrite get_put_same. simpl. rewrite readNumber_value, Htot1, Htot.
    rewrite map_app, sumQ_app. simpl. now rewrite Qplus_0_r. }
  split.
  - intros k Hk. rewrite In_keys_put. unfold info1. rewrite In_keys_put.
    rewrite (Hkeys k Hk). split.
    + intros [H|[H|(t' & Hin & Ht')]]; [congruence | |].
      * exists t. split; [apply in_or_app; simpl; auto | congruence].
      * exists t'. split; [apply in_or_app; auto | auto].
    + intros (t' & Hin & Ht'). apply in_app_or in Hin.
      destruct Hin as [Hin|[<-|[]]]; eauto.
  - intros k Hk. rewrite get_put_other by congruence.
    rewrite filter_app, map_app, sumQ_app. simpl.
    destruct (string_dec (vatKey t) k) as [E|E].
    + unfold info1. rewrite E, get_put_same, String.eqb_refl. simpl.
      rewrite orZero_value, (Hval k Hk), Qplus_0_r. reflexivity.
    + unfold info1. rewrite get_put_other by assumption.
      apply String.eqb_neq in E. rewrite E. simpl.
      rewrite (Hval k Hk), Qplus_0_r. reflexivity.
Qed.

Lemma fold_infoStep_invariant (ts done : list Transaction.t) (info : Obj.t Q) :
  infoOf done info -> infoOf (done ++ ts) (fold_left infoStep ts info).
Proof.
  revert done info. induction ts as [|t ts IH]; intros done info H; simpl.
  - now rewrite app_nil_r.
  - replace (done ++ t :: ts) with ((done ++ [t]) ++ ts)
      by (now rewrite <- app_assoc).
    apply IH. now apply infoStep_invariant.
Qed.

Lemma liabilitiesOf_infoOf (r : LRReportRowItemModel.t) :
  infoOf (liabilityTransactions r) (liabilitiesOf r).
Proof.
  apply (fold_infoStep_invariant (liabilityTransactions r) [] _ infoOf_initial).
Qed.

(** ** The loop over the grouped records *)

Lemma fold_storeStep_split (liabilities : Obj.t Q) (keys : list string)
  (stored totalsLiabilities : Obj.t Q) :
  fold_left (storeStep liabilities) keys (stored, totalsLiabilities)
  = (storeRecord liabilities keys stored,
     storeTotals liabilities keys totalsLiabilities).
Proof.
  revert stored totalsLiabilities.
  induction keys as [|k keys IH]; intros stored tl; simpl.
  - reflexivity.
  - unfold storeRecord, storeTotals in *. simpl. now rewrite <- IH.
Qed.

Lemma recordLiabilities_split (vats : Obj.t VatInfo.t)
  (r : LRReportRowItemModel.t) :
  recordLiabilities vats r = (liabilitiesOf r, registerRecord vats r).
Proof.
  unfold recordLiabilities. apply fold_liabilityStep_split.
Qed.

Lemma processRecord_eq (st : State.t) (r : LRReportRowItemModel.t) :
  processRecord st r
  = {| State.vatTypesInfo := registerRecord (State.vatTypesInfo st) r;
       State.guestRecords :=
         if retained r && isGuest r
         then State.guestRecords st ++ [storedRecord r]
         else State.guestRecords st;
       State.externalRecords :=
         if retained r && negb (isGuest r)
         then State.externalRecords st ++ [storedRecord r]
         else State.externalRecords st;
       State.totals :=
         if retained r then addTotals (State.totals st) r
         else State.totals st |}.
Proof.
  unfold processRecord. rewrite recordLiabilities_split.
  fold (retained r). destruct (retained r); simpl; [|reflexivity].
  rewrite fold_storeStep_split. simpl. fold (isGuest r).
  destruct (isGuest r); reflexivity.
Qed.

Lemma fold_processRecord_eq (rs : list LRReportRowItemModel.t) (st : State.t) :
  fold_left processRecord rs st
  = {| State.vatTypesInfo := fold_left registerRecord rs (State.vatTypesInfo st);
       State.guestRecords :=
         State.guestRecords st
         ++ map storedRecord (filter (fun r => retained r && isGuest r) rs);
       State.externalRecords :=
         State.externalRecords st
         ++ map storedRecord
              (filter (fun r => retained r && negb (isGuest r)) rs);
       State.totals := fold_left addTotals (filter retained rs) (State.totals st) |}.
Proof.
  revert st. induction rs as [|r rs IH]; intros st; simpl.
  - rewrite !app_nil_r. now destruct st.
  - rewrite IH, processRecord_eq. simpl.
    destruct (retained r); destruct (isGuest r); simpl;
      rewrite <- ?app_assoc; reflexivity.
Qed.

Lemma keys_roundEntries (o : Obj.t Q) : Obj.keys (roundEntries o) = Obj.keys o.
Proof.
  unfold Obj.keys, roundEntries. rewrite map_map. reflexivity.
Qed.

Lemma get_roundEntries (k : string) (o : Obj.t Q) :
  Obj.get k (roundEntries o) = option_map round (Obj.get k o).
Proof.
  induction o as [|[k' v] o IH]; simpl; auto.
  destruct (k =? k'); auto.
Qed.

Lemma storeRecord_suffix (info post : Obj.t Q) :
  forall pre stored,
    NoDup (Obj.keys (pre ++ post)) ->
    stored = roundEntries pre ->
    (forall k v, In (k, v) post -> readNumber k info = v) ->
    storeRecord info (Obj.keys post) stored = roundEntries (pre ++ post).
Proof.
  induction post as [|[k v] post IH]; intros pre stored Hnd -> Hread; simpl.
  - now rewrite app_nil_r.
  - unfold storeRecord in *. simpl. rewrite (Hread k v) by (now left).
    rewrite put_absent.
    + replace (pre ++ (k, v) :: post) with ((pre ++ [(k, v)]) ++ post)
        by (now rewrite <- app_assoc).
      apply IH.
      * now rewrite <- app_assoc.
      * unfold roundEntries. now rewrite map_app.
      * intros k' v' Hin. apply Hread. now right.
    + rewrite keys_roundEntries. unfold Obj.keys in *.
      rewrite map_app in Hnd. simpl in Hnd.
      apply NoDup_remove_2 in Hnd. intros Hin. apply Hnd.
      apply in_or_app. now left.
Qed.

Lemma storeRecord_fresh (info : Obj.t Q) :
  NoDup (Obj.keys info) ->
  (exists v rest, info = ("total", v) :: rest) ->
  storeRecord info (Obj.keys info) [("total", 0%Q)] = roundEntries info.
Proof.
  intros Hnd (v0 & rest & E).
  assert (Hread : forall k v, In (k, v) info -> readNumber k info = v).
  { intros k v Hin. unfold readNumber. now rewrite (In_get_Some k v info Hnd Hin). }
  subst info. simpl Obj.keys.
  change (storeRecord (("total", v0) :: rest) (Obj.keys rest)
            (Obj.put "total" (round (readNumber "total" (("total", v0) :: rest)))
               [("total", 0%Q)])
          = roundEntries ([("total", v0)] ++ rest)).
  apply storeRecord_suffix; auto.
  intros k v Hin. apply Hread. now right.
Qed.




(** ** The totals *)





(** ** The registry of VAT categories *)


Lemma registerStep_keys (vats : Obj.t VatInfo.t) (t : Transaction.t) (k : string) :
  In k (Obj.keys (registerStep vats t)) <-> k = vatKey t \/ In k (Obj.keys vats).
Proof.
  unfold registerStep. destruct (Obj.get (vatKey t) vats) eqn:Hget.
  - assert (In (vatKey t) (Obj.keys vats)) by (apply get_Some_iff; eauto).
    intuition congruence.
  - apply In_keys_put.
Qed.


Lemma registerRecord_keys (vats : Obj.t VatInfo.t) (r : LRReportRowItemModel.t)
  (k : string) :
  In k (Obj.keys (registerRecord vats r))
  <-> In k (Obj.keys vats)
      \/ exists t, In t (liabilityTransactions r) /\ vatKey t = k.
Proof.
  unfold registerRecord. generalize (liabilityTransactions r) as ts.
  intros ts. revert vats. induction ts as [|t ts IH]; intros vats; simpl.
  - split; [auto | intros [H|(t & [] & _)]; auto].
  - rewrite IH, registerStep_keys. split.
    + intros [[->|H]|(t' & Hin & H)]; eauto.
    + intros [H|(t' & [<-|Hin] & H)]; eauto.
Qed.



(** ** Sorting *)

Lemma insertSorted_perm {A : Type} (cmp : A -> A -> Q) (a : A) (l : list A) :
  Permutation (insertSorted cmp a l) (a :: l).
Proof.
  induction l as [|b l IH]; simpl; auto.
  destruct (Qle_bool (cmp a b) 0); auto.
  rewrite IH. apply perm_swap.
Qed.

Lemma sortBy_perm {A : Type} (cmp : A -> A -> Q) (l : list A) :
  Permutation (sortBy cmp l) l.
Proof.
  induction l as [|a l IH]; simpl; auto.
  rewrite insertSorted_perm. now constructor.
Qed.








(** ** Records out of the grouping *)

Lemma isGuestOrExternal_true (t : Transaction.t) :
  isGuestOrExternal t = true
  <-> Transaction.referenceType t = "Guest"
      \/ Transaction.referenceType t = "External".
Proof.
  unfold isGuestOrExternal. now rewrite orb_true_iff, !String.eqb_eq.
Qed.







Lemma storedRecord_fresh (r : LRReportRowItemModel.t) :
  fresh r -> storedRecord r = finalRecord r.
Proof.
  unfold fresh, storedRecord, finalRecord. simpl. intros ->.
  rewrite storeRecord_fresh; auto; apply liabilitiesOf_infoOf.
Qed.

Lemma map_storedRecord_fresh (f : LRReportRowItemModel.t -> bool)
  (rs : list LRReportRowItemModel.t) :
  Forall fresh rs ->
  map storedRecord (filter f rs) = map finalRecord (filter f rs).
Proof.
  intros H. apply map_ext_in. intros r Hin. apply storedRecord_fresh.
  apply filter_In in Hin. rewrite Forall_forall in H. now apply H.
Qed.

(** The state after the loop, for records out of the grouping. *)
Lemma aggregate_fresh (rs : list LRReportRowItemModel.t) :
  Forall fresh rs ->
  aggregate rs
  = {| State.vatTypesInfo := fold_left registerRecord rs [];
       State.guestRecords := map finalRecord (retainedGuests rs);
       State.externalRecords := map finalRecord (retainedExternals rs);
       State.totals :=
         fold_left addTotals (filter retained rs) (State.totals initialState) |}.
Proof.
  intros H. unfold aggregate. rewrite fold_processRecord_eq. simpl.
  now rewrite !map_storedRecord_fresh.
Qed.

Lemma generateORLReport_eq (property : string) (data : list Transaction.t)
  (groupedRecords : list LRReportRowItemModel.t) :
  groupTransactions (filter isGuestOrExternal data) = Ok groupedRecords ->
  generateORLReport property data
  = Ok (assemble property (List.length (filter isGuestOrExternal data))
          (aggregate groupedRecords)).
Proof.
  intros H. unfold generateORLReport. now rewrite H.
Qed.


(** ** Surviving records *)








(** ** Registry entries *)






(** ** Grand totals *)



(** ** Stored amounts *)



(** ** Visible columns *)










(** ** Grouping on the plain object *)

Lemma getRecordId_throws (t : Transaction.t) (e : Error) :
  getRecordId t = Throw e -> e = TypeError.
Proof.
  unfold getRecordId. destruct (Transaction.referenceType t =? "Guest");
    [|discriminate].
  destruct (Transaction.reservation t); [discriminate|]. now intros [= <-].
Qed.

Lemma groupable_hasReservation (t : Transaction.t) :
  groupable t = true -> hasReservation t = true.
Proof.
  unfold groupable, hasReservation, getRecordId.
  destruct (Transaction.referenceType t =? "Guest"); auto.
  destruct (Transaction.reservation t); auto.
Qed.

(** On a key that is not inherited the lookup is the lookup among the own
    properties. *)
Lemma plain_groupStep_own (groups : Obj.t LRReportRowItemModel.t)
  (t : Transaction.t) :
  groupable t = true -> Plain.groupStep groups t = groupStep groups t.
Proof.
  unfold groupable, Plain.groupStep, groupStep, Plain.member.
  destruct (getRecordId t) as [k|e]; [|discriminate]. simpl.
  intros Hk. apply negb_true_iff in Hk. rewrite Hk.
  now destruct (Obj.get k groups).
Qed.

Lemma plain_groupStep_throws (groups : Obj.t LRReportRowItemModel.t)
  (t : Transaction.t) :
  ownKeys groups -> groupable t = false ->
  Plain.groupStep groups t = Throw TypeError.
Proof.
  unfold groupable, Plain.groupStep, Plain.member. intros Hown.
  destruct (getRecordId t) as [k|e] eqn:Hid; simpl.
  - intros Hk. apply negb_false_iff in Hk. rewrite Hk.
    destruct (Obj.get k groups) as [group|] eqn:Hget; auto.
    assert (Hin : In k (Obj.keys groups))
      by (apply get_Some_iff; eauto).
    apply Hown in Hin. congruence.
  - intros _. now rewrite (getRecordId_throws t e Hid).
Qed.

Lemma groupStep_ownKeys (groups groups' : Obj.t LRReportRowItemModel.t)
  (t : Transaction.t) :
  ownKeys groups -> groupable t = true ->
  groupStep groups t = Ok groups' -> ownKeys groups'.
Proof.
  unfold groupable, groupStep. intros Hown.
  destruct (getRecordId t) as [k|e]; [|discriminate]. simpl.
  intros Hk. apply negb_true_iff in Hk.
  assert (Hput : forall r, ownKeys (Obj.put k r groups)).
  { intros r k' Hin. apply In_keys_put in Hin.
    destruct Hin as [<-|Hin]; auto. }
  destruct (Obj.get k groups) as [group|].
  - intros [= <-]. apply Hput.
  - destruct (createRecordForTransaction t) as [record|e]; simpl;
      [|discriminate].
    intros [= <-]. apply Hput.
Qed.

Lemma plain_reduce (ts : list Transaction.t) :
  forallb isGuestOrExternal ts = true ->
  forall groups,
    ownKeys groups ->
    if forallb groupable ts
    then exists groups',
           reduceM groupStep ts groups = Ok groups'
           /\ reduceM Plain.groupStep ts groups = Ok groups'
    else reduceM Plain.groupStep ts groups = Throw TypeError.
Proof.
  induction ts as [|t ts IH]; simpl; intros Hge groups Hown.
  - eauto.
  - apply andb_true_iff in Hge. destruct Hge as [Hge Hges].
    destruct (groupable t) eqn:Hg; simpl.
    + rewrite (plain_groupStep_own groups t Hg).
      destruct (groupStep_total groups t Hge (groupable_hasReservation t Hg))
        as [g Hstep].
      rewrite Hstep. simpl. apply (IH Hges).
      now apply (groupStep_ownKeys groups g t).
    + now rewrite (plain_groupStep_throws groups t Hown Hg).
Qed.

Lemma ownKeys_nil : ownKeys [].
Proof. intros k []. Qed.

(** The grouping on the plain object returns exactly when every
    transaction is groupable; it then lists the groups that the reduction
    over the own properties builds. *)
Lemma plain_groupTransactions (data : list Transaction.t) :
  if forallb groupable (filter isGuestOrExternal data)
  then exists groups,
         reduceM groupStep (filter isGuestOrExternal data) [] = Ok groups
         /\ Plain.groupTransactions (filter isGuestOrExternal data)
            = Ok (Plain.values groups)
  else Plain.groupTransactions (filter isGuestOrExternal data)
       = Throw TypeError.
Proof.
  pose proof (plain_reduce (filter isGuestOrExternal data)
                (forallb_filter_same _ _) [] ownKeys_nil) as H.
  unfold Plain.groupTransactions.
  destruct (forallb groupable (filter isGuestOrExternal data)).
  - destruct H as (groups & H1 & H2). exists groups. now rewrite H2.
  - now rewrite H.
Qed.

(** The enumeration of records stored under their ids. *)
Lemma insertSorted_by_id (a : string * LRReportRowItemModel.t)
  (l : Obj.t LRReportRowItemModel.t) :
  (forall k r, In (k, r) (a :: l) -> LRReportRowItemModel.id r = k) ->
  map snd
    (insertSorted (fun a b => Plain.compareIndex (fst a) (fst b)) a l)
  = insertSorted compareId (snd a) (map snd l).
Proof.
  induction l as [|b l IH]; intros H; simpl; auto.
  assert (Ha : LRReportRowItemModel.id (snd a) = fst a)
    by (destruct a; apply H; now left).
  assert (Hb : LRReportRowItemModel.id (snd b) = fst b)
    by (destruct b; apply H; right; now left).
  unfold compareId at 1. rewrite Ha, Hb.
  destruct (Qle_bool (Plain.compareIndex (fst a) (fst b)) 0); simpl; auto.
  f_equal. apply IH. intros k r [Hin|Hin]; apply H; [now left|].
  right. now right.
Qed.

Lemma sortBy_by_id (l : Obj.t LRReportRowItemModel.t) :
  (forall k r, In (k, r) l -> LRReportRowItemModel.id r = k) ->
  map snd (sortBy (fun a b => Plain.compareIndex (fst a) (fst b)) l)
  = sortBy compareId (map snd l).
Proof.
  induction l as [|a l IH]; intros H; simpl; auto.
  unfold sortBy in *. simpl. rewrite <- IH.
  - apply insertSorted_by_id. intros k r [Ha|Hin].
    + apply H. now left.
    + apply H. right.
      exact (Permutation_in _
               (sortBy_perm
                  (fun a b : string * LRReportRowItemModel.t =>
                     Plain.compareIndex (fst a) (fst b)) l) Hin).
  - intros k r Hin. apply H. now right.
Qed.

Lemma filter_by_id (f : string -> bool) (l : Obj.t LRReportRowItemModel.t) :
  (forall k r, In (k, r) l -> LRReportRowItemModel.id r = k) ->
  map snd (filter (fun kv => f (fst kv)) l)
  = filter (fun r => f (LRReportRowItemModel.id r)) (map snd l).
Proof.
  induction l as [|[k r] l IH]; intros H; simpl; auto.
  rewrite (H k r) by (now left).
  destruct (f k); simpl; rewrite IH; auto; intros k' r' Hin; apply H;
    now right.
Qed.

Lemma plain_values_by_id (o : Obj.t LRReportRowItemModel.t) :
  (forall k r, In (k, r) o -> LRReportRowItemModel.id r = k) ->
  Plain.values o = inEnumerationOrder (Obj.values o).
Proof.
  intros H. unfold Plain.values, Plain.entries, inEnumerationOrder, Obj.values.
  rewrite map_app. f_equal.
  - rewrite sortBy_by_id.
    + f_equal. apply (filter_by_id Plain.isIndex o H).
    + intros k r Hin. apply filter_In in Hin. now apply H.
  - apply (filter_by_id (fun k => negb (Plain.isIndex k)) o H).
Qed.

Lemma inEnumerationOrder_perm (rs : list LRReportRowItemModel.t) :
  Permutation (inEnumerationOrder rs) rs.
Proof.
  unfold inEnumerationOrder.
  transitivity (filter hasIndexId rs ++ filter (fun r => negb (hasIndexId r)) rs).
  - apply Permutation_app_tail, sortBy_perm.
  - induction rs as [|r rs IH]; simpl; auto.
    destruct (hasIndexId r); simpl; auto.
    now apply Permutation_sym, Permutation_cons_app, Permutation_sym.
Qed.

Lemma inEnumerationOrder_named (rs : list LRReportRowItemModel.t) :
  Forall (fun r => hasIndexId r = false) rs -> inEnumerationOrder rs = rs.
Proof.
  intros H. unfold inEnumerationOrder.
  assert (E : filter hasIndexId rs = []
              /\ filter (fun r => negb (hasIndexId r)) rs = rs).
  { induction H as [|r rs Hr _ [IH1 IH2]]; simpl; auto.
    rewrite Hr. simpl. now rewrite IH2. }
  destruct E as [-> ->]. reflexivity.
Qed.

(** * Properties of the report *)


(** C7.  The VAT category key of a transaction is [{type}-{percent}] of its
    first tax entry exactly when there is one and its type is not
    [Without]; with no tax list, an empty tax list or a first entry of type
    [Without] the key is [Without]. *)
Theorem vat_key_derivation (t : Transaction.t) :
  match Transaction.taxes t with
  | Some (tax :: _) =>
      let typed :=
        (TaxAmountModel.type tax ++ "-"
         ++ numberToString (TaxAmountModel.percent tax))%string in
      (TaxAmountModel.type tax <> "Without"
       /\ getVatTypeKey (firstTax t) = typed)
      \/ (TaxAmountModel.type tax = "Without"
          /\ getVatTypeKey (firstTax t) = "Without"
          /\ getVatTypeKey (firstTax t) <> typed)
  | Some [] | None => getVatTypeKey (firstTax t) = "Without"
  end.
Proof.
  unfold firstTax. destruct (Transaction.taxes t) as [[|tax rest]|]; auto.
  simpl. destruct (TaxAmountModel.type tax =? "Without") eqn:E; simpl.
  - apply String.eqb_eq in E. right. rewrite E. repeat split.
    simpl. discriminate.
  - apply String.eqb_neq in E. left. now split.
Qed.


(** C10.  A Guest transaction and an External transaction whose reference
    is the id of the reservation of the former share one grouping key and so
    one record; the record has the kind, the identity and the stay of
    whichever of the two comes first. *)
Theorem guest_and_external_share_a_record (g e : Transaction.t)
  (res : ReservationModel.t) :
  Transaction.referenceType g = "Guest" ->
  Transaction.reservation g = Some res ->
  Transaction.referenceType e = "External" ->
  Transaction.reference e = ReservationModel.id res ->
  (exists r,
      groupTransactions (filter isGuestOrExternal [e; g]) = Ok [r]
      /\ LRReportRowItemModel.transactions r = [e; g]
      /\ staticFieldsOf e r)
  /\ (exists r,
         groupTransactions (filter isGuestOrExternal [g; e]) = Ok [r]
         /\ LRReportRowItemModel.transactions r = [g; e]
         /\ staticFieldsOf g r).
Proof.
  intros Hg Hres He Href.
  assert (Hfg : isGuestOrExternal g = true)
    by (apply isGuestOrExternal_true; auto).
  assert (Hfe : isGuestOrExternal e = true)
    by (apply isGuestOrExternal_true; auto).
  assert (Hne : (Transaction.referenceType e =? "Guest") = false)
    by (now rewrite He).
  assert (Hee : (Transaction.referenceType e =? "External") = true)
    by (now rewrite He).
  assert (Hgg : (Transaction.referenceType g =? "Guest") = true)
    by (now rewrite Hg).
  split.
  - eexists. simpl. rewrite Hfg, Hfe.
    unfold groupTransactions, groupStep, getRecordId, createRecordForTransaction.
    simpl. rewrite Hne, Hee, Hgg, Hres. simpl.
    rewrite ?Href, ?String.eqb_refl. simpl. rewrite ?Href, ?String.eqb_refl. simpl.
    split; [reflexivity|]. split; [reflexivity|].
    right. simpl. auto 10.
  - eexists. simpl. rewrite Hfg, Hfe.
    unfold groupTransactions, groupStep, getRecordId, createRecordForTransaction.
    simpl. rewrite Hne, Hgg, Hres. simpl.
    rewrite ?Href, ?String.eqb_refl. simpl. rewrite ?Href, ?String.eqb_refl. simpl.
    split; [reflexivity|]. split; [reflexivity|].
    left. split; auto. exists res. simpl. auto 10.
Qed.







(** * Further properties *)

(** ** Identities of the records *)

Lemma createRecord_id (t : Transaction.t) (r : LRReportRowItemModel.t) :
  createRecordForTransaction t = Ok r ->
  getRecordId t = Ok (LRReportRowItemModel.id r).
Proof.
  unfold createRecordForTransaction, getRecordId.
  destruct (Transaction.referenceType t =? "Guest").
  - destruct (Transaction.reservation t); [|discriminate]. now intros [= <-].
  - destruct (Transaction.referenceType t =? "External"); [|discriminate].
    now intros [= <-].
Qed.

Lemma isRecordOf_id (k : string) (ts : list Transaction.t)
  (r : LRReportRowItemModel.t) :
  isRecordOf k ts r ->
  LRReportRowItemModel.id r = k
  /\ LRReportRowItemModel.transactions r = filter (hasRecordId k) ts
  /\ LRReportRowItemModel.transactions r <> [].
Proof.
  intros (t0 & rest & r0 & Hf & Hc & ->). simpl. rewrite Hf.
  split; [|split; [reflexivity | discriminate]].
  apply createRecord_id in Hc.
  assert (Hin : In t0 (filter (hasRecordId k) ts)) by (rewrite Hf; now left).
  apply filter_In in Hin. destruct Hin as [_ Hk].
  apply hasRecordId_true in Hk. congruence.
Qed.




(** ** Grouping as a partition *)





Lemma filter_all {A : Type} (f : A -> bool) (l : list A) :
  (forall x, In x l -> f x = true) -> filter f l = l.
Proof.
  induction l as [|x l IH]; intros H; simpl; auto.
  rewrite (H x) by (now left). f_equal. apply IH. intros y Hy. apply H.
  now right.
Qed.




(** ** The values handed to the sheet *)





(** X5.  Without a Guest or External transaction, and so on the empty
    input, the report is produced with the six fixed header names, no VAT
    column and no row; nothing is written under the header, the totals row
    that is computed holds zeros, and the summary counts are 0. *)
Theorem nothing_to_report (property : string) (data : list Transaction.t) :
  filter isGuestOrExternal data = [] ->
  generateORLReport property data
  = Ok {| Report.liabilitiesColumns := [];
          Report.header :=
            [ "Reservation ID"; "Arrival"; "Departure"; "Status";
              "Receivables"; "Liabilities" ];
          Report.rows := [];
          Report.totalRow :=
            [ CStr EmptyString; CStr EmptyString; CStr EmptyString;
              CStr "Total"; CNum 0; CNum 0 ];
          Report.body := [];
          Report.transactionsProcessed := 0;
          Report.recordsTotal := 0;
          Report.reservations := 0;
          Report.externalFolios := 0 |}.
Proof.
  intros H. unfold generateORLReport. rewrite H. reflexivity.
Qed.

(** ** The liabilities of a record, before rounding *)

Lemma single_key (k : string) (ks : list string) :
  NoDup ks -> In k ks -> (forall k', In k' ks -> k' = k) -> ks = [k].
Proof.
  destruct ks as [|a [|b ks]]; simpl.
  - tauto.
  - intros _ [->|[]] _. reflexivity.
  - intros Hnd _ H. exfalso. apply NoDup_cons_iff in Hnd.
    destruct Hnd as [Hnot _]. apply Hnot.
    rewrite (H a), (H b); auto. now left.
Qed.

Lemma filter_same_key (k : string) (ts : list Transaction.t) :
  (forall t, In t ts -> vatKey t = k) ->
  filter (fun t => vatKey t =? k) ts = ts.
Proof.
  induction ts as [|t ts IH]; simpl; intros H; auto.
  rewrite (H t) by (now left). rewrite String.eqb_refl.
  f_equal. apply IH. intros t' Hin. apply H. now right.
Qed.

(** X6.  The liabilities that the reduction builds for a record hold
    [total] first and then one amount for each VAT key of the liability
    transactions of the record, each key once.  Without liability
    transactions there is the total 0 alone.  When the liability
    transactions are all of one VAT key, the amount under that key and the
    total are the same number: the liabilities column and the column of
    that VAT category show the same amount. *)
Theorem liabilities_keys_and_single_category
  (vatTypesInfo : Obj.t VatInfo.t) (record : LRReportRowItemModel.t) :
  exists total rest,
    fst (recordLiabilities vatTypesInfo record) = ("total", total) :: rest
    /\ ~ In "total" (Obj.keys rest)
    /\ NoDup (Obj.keys rest)
    /\ (forall k,
          In k (Obj.keys rest)
          <-> exists t,
                In t (liabilityTransactions record)
                /\ getVatTypeKey (firstTax t) = k)
    /\ (liabilityTransactions record = [] -> total = 0%Q /\ rest = [])
    /\ (forall k,
          liabilityTransactions record <> [] ->
          (forall t, In t (liabilityTransactions record) ->
                     getVatTypeKey (firstTax t) = k) ->
          exists amount,
            rest = [(k, amount)]
            /\ (amount == total)%Q
            /\ round amount = round total).
Proof.
  rewrite recordLiabilities_split. simpl.
  pose proof (liabilitiesOf_infoOf record) as Hinv.
  destruct Hinv as (Hnd & (total & rest & E) & Htot & Hkeys & Hval).
  exists total, rest. split; [exact E|].
  rewrite E in Hnd, Hkeys, Hval, Htot. simpl in Hnd, Htot.
  apply NoDup_cons_iff in Hnd. destruct Hnd as [Hnot Hnd].
  assert (Hrest : forall k,
             In k (Obj.keys rest)
             <-> exists t, In t (liabilityTransactions record) /\ vatKey t = k).
  { intros k. destruct (string_dec k "total") as [->|Hk].
    - split; [contradiction|]. intros (t & _ & Ht).
      now apply vatKey_not_total in Ht.
    - rewrite <- (Hkeys k Hk). simpl. split; [tauto|].
      intros [H|H]; [congruence | exact H]. }
  split; [exact Hnot|]. split; [exact Hnd|]. split; [exact Hrest|]. split.
  - intros Hnone. unfold liabilitiesOf in E. rewrite Hnone in E. simpl in E.
    injection E as <- <-. now split.
  - intros k Hsome Hall.
    destruct (liabilityTransactions record) as [|t0 ts] eqn:Hts;
      [congruence|].
    assert (Hk : k <> "total").
    { rewrite <- (Hall t0) by (now left). apply vatKey_not_total. }
    assert (Hin : In k (Obj.keys rest)).
    { apply Hrest. exists t0. split; [now left | apply Hall; now left]. }
    assert (Hone : Obj.keys rest = [k]).
    { apply single_key; auto. intros k' Hin'. apply Hrest in Hin'.
      destruct Hin' as (t & Ht & <-). now apply Hall. }
    destruct rest as [|[k' amount] [|kv rest]]; try discriminate.
    simpl in Hone. injection Hone as ->.
    exists amount. split; [reflexivity|].
    assert (Heq : (amount == total)%Q).
    { specialize (Hval k Hk).
      rewrite (filter_same_key k (t0 :: ts) Hall) in Hval.
      rewrite <- Htot in Hval. simpl in Hval.
      apply String.eqb_neq in Hk. rewrite Hk, String.eqb_refl in Hval.
      exact Hval. }
    split; [exact Heq | now apply round_proper].
Qed.

(** ** The registry of VAT categories, again *)

Lemma registerStep_appends (vats : Obj.t VatInfo.t) (t : Transaction.t) :
  exists added, registerStep vats t = vats ++ added.
Proof.
  unfold registerStep. destruct (Obj.get (vatKey t) vats) eqn:Hget.
  - exists []. now rewrite app_nil_r.
  - apply get_None_iff in Hget. rewrite put_absent by assumption. eauto.
Qed.

Lemma registerRecord_appends (vats : Obj.t VatInfo.t)
  (r : LRReportRowItemModel.t) :
  exists added, registerRecord vats r = vats ++ added.
Proof.
  unfold registerRecord. generalize (liabilityTransactions r) as ts.
  intros ts. revert vats. induction ts as [|t ts IH]; intros vats; simpl.
  - exists []. now rewrite app_nil_r.
  - destruct (registerStep_appends vats t) as [a1 ->].
    destruct (IH (vats ++ a1)) as [a2 ->]. exists (a1 ++ a2).
    now rewrite app_assoc.
Qed.

Lemma get_app_Some {A : Type} (k : string) (v : A) (o o' : Obj.t A) :
  Obj.get k o = Some v -> Obj.get k (o ++ o') = Some v.
Proof.
  induction o as [|[k' v'] o IH]; simpl; [discriminate|].
  destruct (k =? k'); auto.
Qed.

(** X7.  The registry of VAT categories only grows: processing a record,
    retained or not, leaves the entries there are in place and unchanged,
    and appends behind them the categories of the liability transactions of
    the record that are new.  So the label and the sort weight of a category
    are those of its first discovery, and a dropped record takes part in the
    discovery order. *)
Theorem registry_only_grows (st : State.t) (record : LRReportRowItemModel.t) :
  let before := State.vatTypesInfo st in
  let after := State.vatTypesInfo (processRecord st record) in
  (exists added, after = before ++ added)
  /\ (forall k v, Obj.get k before = Some v -> Obj.get k after = Some v)
  /\ (forall k,
        In k (Obj.keys after)
        <-> In k (Obj.keys before)
            \/ exists t,
                 In t (LRReportRowItemModel.transactions record)
                 /\ isLiability t = true
                 /\ getVatTypeKey (firstTax t) = k).
Proof.
  cbv zeta. rewrite processRecord_eq. simpl State.vatTypesInfo.
  destruct (registerRecord_appends (State.vatTypesInfo st) record)
    as [added E].
  split; [eauto|]. split.
  - intros k v H. rewrite E. now apply get_app_Some.
  - intros k. rewrite registerRecord_keys. unfold liabilityTransactions.
    split; intros [H|(t & Hin & Hk)]; auto; right; exists t.
    + apply filter_In in Hin. tauto.
    + split; [apply filter_In|]; tauto.
Qed.

(** ** The earlier version of the report *)

Lemma get_mapValues {A B : Type} (f : A -> B) (k : string) (o : Obj.t A) :
  Obj.get k (mapValues f o) = option_map f (Obj.get k o).
Proof.
  induction o as [|[k' v] o IH]; simpl; auto.
  destruct (k =? k'); auto.
Qed.

Lemma put_mapValues {A B : Type} (f : A -> B) (k : string) (v : A)
  (o : Obj.t A) :
  Obj.put k (f v) (mapValues f o) = mapValues f (Obj.put k v o).
Proof.
  induction o as [|[k' v'] o IH]; simpl; auto.
  destruct (k =? k'); simpl; auto. now rewrite IH.
Qed.

Lemma values_mapValues {A B : Type} (f : A -> B) (o : Obj.t A) :
  Obj.values (mapValues f o) = map f (Obj.values o).
Proof.
  unfold Obj.values, mapValues. rewrite !map_map. reflexivity.
Qed.

(** On a Guest transaction the two reductions take the same step. *)
Lemma groupStep_reservationStep (o : Obj.t ReservationWithTransactions.t)
  (t : Transaction.t) :
  isGuestTransaction t = true ->
  groupStep (mapValues ofReservation o) t
  = match reservationStep o t with
    | Ok o' => Ok (mapValues ofReservation o')
    | Throw e => Throw e
    end.
Proof.
  unfold isGuestTransaction. intros Hguest.
  unfold groupStep, reservationStep, getRecordId, createRecordForTransaction.
  rewrite Hguest. destruct (Transaction.reservation t) as [res|]; auto.
  simpl. rewrite get_mapValues.
  destruct (Obj.get (ReservationModel.id res) o) as [r|]; simpl.
  - now rewrite <- put_mapValues.
  - now rewrite <- put_mapValues.
Qed.

Lemma reduce_groupStep_reservationStep (ts : list Transaction.t) :
  forallb isGuestTransaction ts = true ->
  forall o,
    reduceM groupStep ts (mapValues ofReservation o)
    = match reduceM reservationStep ts o with
      | Ok o' => Ok (mapValues ofReservation o')
      | Throw e => Throw e
      end.
Proof.
  induction ts as [|t ts IH]; simpl; intros Hall o; auto.
  apply andb_true_iff in Hall. destruct Hall as [Ht Hts].
  rewrite (groupStep_reservationStep o t Ht).
  destruct (reservationStep o t) as [o'|e]; simpl; auto.
Qed.

Lemma groupTransactions_reservations (data : list Transaction.t) :
  groupTransactions (filter isGuestTransaction data)
  = match reservationsWithTransactions data with
    | Ok reservations => Ok (map ofReservation reservations)
    | Throw e => Throw e
    end.
Proof.
  unfold groupTransactions, reservationsWithTransactions.
  pose proof (reduce_groupStep_reservationStep
                (filter isGuestTransaction data)
                (forallb_filter_same _ _) []) as H.
  simpl in H. rewrite H.
  destruct (reduceM reservationStep (filter isGuestTransaction data) []);
    simpl; auto.
  now rewrite values_mapValues.
Qed.

Lemma filter_guest_kept (data : list Transaction.t) :
  filter isGuestOrExternal (filter isGuestTransaction data)
  = filter isGuestTransaction data.
Proof.
  apply filter_all. intros t Hin. apply filter_In in Hin.
  unfold isGuestOrExternal, isGuestTransaction in *.
  destruct Hin as [_ ->]. reflexivity.
Qed.

Lemma sumGross_exact (ts : list Transaction.t) :
  (sumGross ts == sumQ (map Transaction.grossAmount ts))%Q.
Proof.
  unfold sumGross. rewrite fold_left_Qplus. apply Qplus_0_l.
Qed.

Lemma rounded_total (r : LRReportRowItemModel.t) :
  round (readNumber "total" (liabilitiesOf r))
  = round (sumGross (liabilityTransactions r)).
Proof.
  apply round_proper. rewrite sumGross_exact.
  apply (liabilitiesOf_infoOf r).
Qed.

Lemma ofReservation_balance (toFixed : Q -> string) (property : string)
  (r : ReservationWithTransactions.t) :
  retained (ofReservation r) = hasOpenBalance (withBalance r)
  /\ reservationCells toFixed property (finalRecord (ofReservation r))
     = map Some (reservationRow toFixed property (withBalance r)).
Proof.
  split.
  - unfold retained, hasOpenBalance. now rewrite rounded_total.
  - unfold reservationCells, reservationRow. simpl.
    unfold readNumber. rewrite get_roundEntries.
    destruct (liabilitiesOf_infoOf (ofReservation r))
      as (_ & (v & rest & E) & _).
    pose proof (rounded_total (ofReservation r)) as Hr.
    unfold readNumber in Hr. rewrite E in *. simpl in *. now rewrite Hr.
Qed.

Lemma filter_map_swap {A B : Type} (f : A -> B) (p : B -> bool) (l : list A) :
  filter p (map f l) = map f (filter (fun x => p (f x)) l).
Proof.
  induction l as [|x l IH]; simpl; auto.
  destruct (p (f x)); simpl; now rewrite IH.
Qed.

(** X8.  On the Guest transactions of an input the earlier version and the
    report agree.  Both throw when a Guest transaction lacks its
    reservation.  Otherwise the report has no external folio, its
    reservations are those the earlier version shows, in the same order,
    with the same arrival, departure, status and receivables, and the
    liabilities of the earlier version are the liabilities total of the
    report; the two counts of the earlier summary are the number of grouped
    records and the number of reservations of the report. *)
Theorem earlier_version_agrees_on_guest_transactions
  (toFixed : Q -> string) (property : string) (data : list Transaction.t) :
  let guests := filter isGuestTransaction data in
  match generateReservationsReport toFixed property data with
  | Ok earlier =>
      exists groupedRecords,
        groupTransactions (filter isGuestOrExternal guests) = Ok groupedRecords
        /\ let st := aggregate groupedRecords in
           generateORLReport property guests
           = Ok (assemble property (List.length guests) st)
           /\ State.externalRecords st = []
           /\ map (map Some) (ReservationsReport.rows earlier)
              = map (reservationCells toFixed property) (State.guestRecords st)
           /\ ReservationsReport.reservationsWithBalances earlier
              = List.length groupedRecords
           /\ ReservationsReport.withOpenBalance earlier
              = List.length (State.guestRecords st)
  | Throw e => generateORLReport property guests = Throw e
  end.
Proof.
  cbv zeta. unfold generateReservationsReport, generateORLReport.
  rewrite filter_guest_kept, groupTransactions_reservations.
  destruct (reservationsWithTransactions data) as [rs|e]; simpl; auto.
  exists (map ofReservation rs). split; [reflexivity|]. split; [reflexivity|].
  assert (Hfresh : Forall fresh (map ofReservation rs)).
  { apply Forall_forall. intros r Hin. apply in_map_iff in Hin.
    destruct Hin as (r0 & <- & _). reflexivity. }
  rewrite (aggregate_fresh _ Hfresh). simpl.
  unfold retainedGuests, retainedExternals. rewrite !filter_map_swap.
  assert (Hext : filter (fun x => retained (ofReservation x)
                                  && negb (isGuest (ofReservation x))) rs = []).
  { induction rs as [|r rs' IH]; simpl; auto.
    rewrite andb_false_r. apply IH.
    apply Forall_forall. intros r0 Hin. apply in_map_iff in Hin.
    destruct Hin as (r1 & <- & _). reflexivity. }
  assert (Hguest : filter (fun x => retained (ofReservation x)
                                    && isGuest (ofReservation x)) rs
                   = filter (fun x => hasOpenBalance (withBalance x)) rs).
  { apply filter_ext. intros r.
    destruct (ofReservation_balance toFixed property r) as [-> _].
    apply andb_true_r. }
  rewrite Hext, Hguest. simpl. rewrite !length_map, !map_map.
  repeat split.
  apply map_ext. intros r. symmetry.
  apply (ofReservation_balance toFixed property r).
Qed.

(** ** The order of the input *)


Lemma groups_keys_iff (ts : list Transaction.t)
  (groups : Obj.t LRReportRowItemModel.t) (k : string) :
  groupsOf ts groups ->
  In k (Obj.keys groups) <-> exists t, In t ts /\ getRecordId t = Ok k.
Proof.
  intros (Hnd & Hcov & Hrec). split.
  - intros Hin. apply get_Some_iff in Hin. destruct Hin as [r Hr].
    destruct (Hrec _ _ Hr) as (t0 & rest & _ & Hf & _).
    assert (Hin : In t0 (filter (hasRecordId k) ts)) by (rewrite Hf; now left).
    apply filter_In in Hin. destruct Hin as [Hin Hk].
    apply hasRecordId_true in Hk. eauto.
  - intros (t & Hin & Hk). destruct (Hcov _ Hin) as (k' & Hk' & Hkin).
    congruence.
Qed.






(** ** Keys and reads *)

(** X10.  A tax entry of another type than Without never falls under the
    untaxed key: the key is [Without] exactly for a missing tax entry and
    for an entry of type Without.  No key is [total], the property that
    holds the liabilities total in the same objects. *)
Theorem untaxed_key_only_for_untaxed (tax : option TaxAmountModel.t) :
  (getVatTypeKey tax = "Without"
   <-> match tax with
       | None => True
       | Some entry => TaxAmountModel.type entry = "Without"
       end)
  /\ getVatTypeKey tax <> "total".
Proof.
  unfold getVatTypeKey. destruct tax as [entry|].
  - destruct (TaxAmountModel.type entry =? "Without") eqn:E; cbn [negb].
    + apply String.eqb_eq in E. split; [tauto | discriminate].
    + apply String.eqb_neq in E.
      pose proof (hasDash_app (TaxAmountModel.type entry)
                    (numberToString (TaxAmountModel.percent entry))) as Hd.
      split; [split; [|tauto] |]; intros H; rewrite H in Hd; discriminate.
  - split; [tauto | discriminate].
Qed.



(** ** Dates *)

Lemma substr0_cons (n : nat) (c : ascii) (s : string) :
  substr0 (S n) (String c s) = String c (substr0 n s).
Proof. reflexivity. Qed.

Lemma substr0_facts (n : nat) (s : string) :
  String.length (substr0 n s) = Nat.min n (String.length s)
  /\ prefix (substr0 n s) s = true
  /\ (String.length s <= n -> substr0 n s = s)%nat.
Proof.
  revert s. induction n as [|n IH]; intros s.
  - unfold substr0. destruct s; simpl; repeat split; auto.
    intros H. inversion H.
  - destruct s as [|c s]; [simpl; auto|].
    rewrite substr0_cons. destruct (IH s) as (Hl & Hp & Hs). simpl.
    repeat split.
    + now rewrite Hl.
    + destruct (ascii_dec c c); [exact Hp | congruence].
    + intros H. f_equal. apply Hs. lia.
Qed.

(** X12.  The arrival and the departure of a Guest record are the first 10
    characters of the dates of the reservation: they are prefixes of them of
    at most 10 characters, and a date of 10 characters or fewer is taken as
    it is. *)
Theorem dates_are_cut_to_ten_characters (t : Transaction.t)
  (res : ReservationModel.t) :
  Transaction.referenceType t = "Guest" ->
  Transaction.reservation t = Some res ->
  exists r a d,
    createRecordForTransaction t = Ok r
    /\ LRReportRowItemModel.arrival r = Some a
    /\ LRReportRowItemModel.departure r = Some d
    /\ String.length a = Nat.min 10 (String.length (ReservationModel.arrival res))
    /\ String.length d
       = Nat.min 10 (String.length (ReservationModel.departure res))
    /\ prefix a (ReservationModel.arrival res) = true
    /\ prefix d (ReservationModel.departure res) = true
    /\ (String.length (ReservationModel.arrival res) <= 10 ->
        a = ReservationModel.arrival res)%nat
    /\ (String.length (ReservationModel.departure res) <= 10 ->
        d = ReservationModel.departure res)%nat.
Proof.
  intros Hguest Hres. unfold createRecordForTransaction.
  rewrite Hguest, Hres. simpl.
  destruct (substr0_facts 10 (ReservationModel.arrival res)) as (Ha & Hpa & Hsa).
  destruct (substr0_facts 10 (ReservationModel.departure res))
    as (Hd & Hpd & Hsd).
  do 3 eexists. repeat split; simpl; eauto.
Qed.

(** ** The order of the records *)

(** X13.  When every Guest and External transaction is groupable, the
    report groups into the records that the reduction over the own
    properties builds, and [Object.values] lists them in the order of
    enumeration: the records whose id is an array index first, by
    ascending index, then the other records in the order in which their
    keys were first seen.  When no grouping key is an array index, the
    records are in the order in which their keys were first seen, and the
    report is the one over the insertion-ordered groups. *)
Theorem records_in_enumeration_order (property : string)
  (data : list Transaction.t) :
  forallb groupable (filter isGuestOrExternal data) = true ->
  exists groupedRecords,
    groupTransactions (filter isGuestOrExternal data) = Ok groupedRecords
    /\ Plain.groupTransactions (filter isGuestOrExternal data)
       = Ok (inEnumerationOrder groupedRecords)
    /\ generateORLReportOnPlainObject property data
       = Ok (assemble property
               (List.length (filter isGuestOrExternal data))
               (aggregate (inEnumerationOrder groupedRecords)))
    /\ Permutation (inEnumerationOrder groupedRecords) groupedRecords
    /\ ((forall t k,
            In t (filter isGuestOrExternal data) ->
            getRecordId t = Ok k -> Plain.arrayIndex k = None) ->
        inEnumerationOrder groupedRecords = groupedRecords
        /\ generateORLReportOnPlainObject property data
           = generateORLReport property data).
Proof.
  intros Hall. pose proof (plain_groupTransactions data) as H.
  rewrite Hall in H. destruct H as (groups & Hred & Hplain).
  assert (Hg : groupTransactions (filter isGuestOrExternal data)
               = Ok (Obj.values groups))
    by (unfold groupTransactions; now rewrite Hred).
  destruct (groupTransactions_groupsOf _ _ Hg) as (groups0 & Hinv & E).
  assert (Hids : forall k r, In (k, r) groups ->
                   LRReportRowItemModel.id r = k).
  { unfold groupTransactions in Hg. rewrite Hred in Hg. simpl in Hg.
    pose proof (reduce_groupStep_invariant _ [] [] groups groupsOf_nil Hred)
      as (Hnd & _ & Hrec).
    intros k r Hin. apply In_get_Some in Hin; auto.
    now destruct (isRecordOf_id _ _ _ (Hrec _ _ Hin)). }
  rewrite (plain_values_by_id groups Hids) in Hplain.
  exists (Obj.values groups). split; [exact Hg|]. split; [exact Hplain|].
  assert (Hrep : generateORLReportOnPlainObject property data
                 = Ok (assemble property
                         (List.length (filter isGuestOrExternal data))
                         (aggregate (inEnumerationOrder (Obj.values groups)))))
    by (unfold generateORLReportOnPlainObject; now rewrite Hplain).
  split; [exact Hrep|]. split; [apply inEnumerationOrder_perm|].
  intros Hnone.
  assert (Hsame : inEnumerationOrder (Obj.values groups) = Obj.values groups).
  { apply inEnumerationOrder_named. apply Forall_forall. intros r Hin.
    unfold Obj.values in Hin. apply in_map_iff in Hin.
    destruct Hin as ([k r'] & <- & Hin). simpl.
    pose proof (reduce_groupStep_invariant _ [] [] groups groupsOf_nil Hred)
      as Hinv1.
    assert (Hk : In k (Obj.keys groups))
      by (unfold Obj.keys; apply in_map_iff; exists (k, r'); auto).
    apply (groups_keys_iff _ _ k Hinv1) in Hk. destruct Hk as (t & Ht & Hk).
    unfold hasIndexId, Plain.isIndex. rewrite (Hids k r' Hin).
    now rewrite (Hnone t k Ht Hk). }
  split; [exact Hsame|].
  rewrite Hrep, Hsame. symmetry. now apply generateORLReport_eq.
Qed.

End Aggregation.

(** * Worked examples *)


Lemma guest_and_external_share_a_record_witness :
  exists r,
    groupTransactions
      (filter isGuestOrExternal [externalLiability "R1" 20; guestReceivable 100])
    = Ok [r]
    /\ LRReportRowItemModel.type r = "External"
    /\ LRReportRowItemModel.id r = "R1"
    /\ LRReportRowItemModel.arrival r = None.
Proof.
  destruct (guest_and_external_share_a_record (guestReceivable 100)
              (externalLiability "R1" 20) reservationR1
              eq_refl eq_refl eq_refl eq_refl)
    as [(r & Hg & Htr & Hs) _].
  exists r. split; [exact Hg|].
  vm_compute in Hg. injection Hg as <-. repeat split.
Defined.











(** ** Worked examples of the further properties *)





(** An input of a transaction of another reference type only. *)
Lemma nothing_to_report_witness :
  exists report,
    generateORLReport decimalString "BER"
      [ {| Transaction.referenceType := "House";
           Transaction.reference := EmptyString;
           Transaction.reservation := None;
           Transaction.grossAmount := 10;
           Transaction.debitedAccount := account "Receivables";
           Transaction.creditedAccount := account "Revenues";
           Transaction.taxes := None |} ]
    = Ok report
    /\ Report.body report = []
    /\ Report.transactionsProcessed report = 0%nat.
Proof.
  eexists. split; [apply nothing_to_report; reflexivity|].
  split; reflexivity.
Defined.



Lemma dates_are_cut_to_ten_characters_witness :
  exists r,
    createRecordForTransaction (guestReceivable 100) = Ok r
    /\ LRReportRowItemModel.arrival r = Some "2024-05-01"
    /\ LRReportRowItemModel.departure r = Some "2024-05-03".
Proof.
  destruct (dates_are_cut_to_ten_characters (guestReceivable 100)
              reservationR1 eq_refl eq_refl)
    as (r & a & d & Hr & _).
  exists r. split; [exact Hr|].
  vm_compute in Hr. injection Hr as <-. split; reflexivity.
Defined.

(** External folios with the references B7, 10, 9 and 007: 9 and 10 are
    array indices, B7 and 007 are not. *)
Lemma records_in_enumeration_order_witness :
  exists groupedRecords,
    groupTransactions (filter isGuestOrExternal numberedFolios)
    = Ok groupedRecords
    /\ Plain.groupTransactions (filter isGuestOrExternal numberedFolios)
       = Ok (inEnumerationOrder groupedRecords)
    /\ map LRReportRowItemModel.id groupedRecords = ["B7"; "10"; "9"; "007"]
    /\ map LRReportRowItemModel.id (inEnumerationOrder groupedRecords)
       = ["9"; "10"; "B7"; "007"].
Proof.
  destruct (records_in_enumeration_order decimalString "BER" numberedFolios
              eq_refl)
    as (rs & Hg & Hplain & _).
  exists rs. split; [exact Hg|]. split; [exact Hplain|].
  vm_compute in Hg. injection Hg as <-. split; reflexivity.
Defined.
